(** * The access-control permission store (package [database])

    A shallow embedding of [AccessControlStore]: [GetUserPermissions],
    [GetUsersPermissions] and [DeleteUserPermissions].  The store talks to a
    relational database through SQL text; here every table is a list of rows
    (a bag, in storage order) and every statement is the relational
    expression its SQL text denotes.  Go's [int64] is [Z] (the code does no
    arithmetic on ids), Go's [string] is [string], a Go [map] is a [gmap]. *)

From stdpp Require Import gmap strings list fin_maps.
From Stdlib Require Import Ascii DecimalString ZArith.

Open Scope Z_scope.

(** ** Tables *)

Module Tables.

(** Only the columns named by the store's SQL are kept. *)
Record PermissionRow := {
  permission_role_id : Z;
  permission_action : string;
  permission_scope : string }.

Record RoleRow := {
  role_id : Z;
  role_name : string;
  role_org_id : Z }.

Record UserRoleRow := {
  user_role_org_id : Z;
  user_role_user_id : Z;
  user_role_role_id : Z }.

Record TeamRoleRow := {
  team_role_org_id : Z;
  team_role_team_id : Z;
  team_role_role_id : Z }.

Record TeamMemberRow := {
  team_member_team_id : Z;
  team_member_user_id : Z }.

Record BuiltinRoleRow := {
  builtin_role_role : string;
  builtin_role_role_id : Z;
  builtin_role_org_id : Z }.

Record OrgUserRow := {
  org_user_org_id : Z;
  org_user_user_id : Z;
  org_user_role : string }.

Record UserRow := {
  user_id : Z;
  user_is_admin : bool }.

#[global] Instance PermissionRow_eq_dec : EqDecision PermissionRow.
Proof. solve_decision. Defined.
#[global] Instance RoleRow_eq_dec : EqDecision RoleRow.
Proof. solve_decision. Defined.
#[global] Instance UserRoleRow_eq_dec : EqDecision UserRoleRow.
Proof. solve_decision. Defined.
#[global] Instance OrgUserRow_eq_dec : EqDecision OrgUserRow.
Proof. solve_decision. Defined.
#[global] Instance UserRow_eq_dec : EqDecision UserRow.
Proof. solve_decision. Defined.

(** The persisted state seen by one session. *)
Record DB := {
  permission : list PermissionRow;
  role : list RoleRow;
  user_role : list UserRoleRow;
  team_role : list TeamRoleRow;
  team_member : list TeamMemberRow;
  builtin_role : list BuiltinRoleRow;
  org_user : list OrgUserRow;
  user : list UserRow }.

Definition set_permission (rows : list PermissionRow) (db : DB) : DB :=
  {| permission := rows; role := role db; user_role := user_role db;
     team_role := team_role db; team_member := team_member db;
     builtin_role := builtin_role db; org_user := org_user db;
     user := user db |}.

Definition set_role (rows : list RoleRow) (db : DB) : DB :=
  {| permission := permission db; role := rows; user_role := user_role db;
     team_role := team_role db; team_member := team_member db;
     builtin_role := builtin_role db; org_user := org_user db;
     user := user db |}.

Definition set_user_role (rows : list UserRoleRow) (db : DB) : DB :=
  {| permission := permission db; role := role db; user_role := rows;
     team_role := team_role db; team_member := team_member db;
     builtin_role := builtin_role db; org_user := org_user db;
     user := user db |}.

End Tables.
Export Tables.

(** ** Relational operators *)

Module Sql.

(** [l INNER JOIN r ON on]: the pairs of the product that satisfy the
    condition, the left table outermost. *)
Definition inner_join {A B : Type} (on : A * B → Prop)
    `{∀ x, Decision (on x)} (l : list A) (r : list B) : list (A * B) :=
  filter on (a ← l; pair a <$> r).

(** [l LEFT JOIN r ON on]: a left row without a partner is kept once, with
    the right side NULL. *)
Definition left_join {A B : Type} (on : A * B → Prop)
    `{∀ x, Decision (on x)} (l : list A) (r : list B)
    : list (A * option B) :=
  a ← l;
  match filter (λ b, on (a, b)) r with
  | [] => [(a, None)]
  | bs => (λ b, (a, Some b)) <$> bs
  end.

(** [l UNION r] (not [UNION ALL]): the rows of both with duplicate rows
    removed. *)
Definition union {A : Type} `{EqDecision A} (l r : list A) : list A :=
  remove_dups (l ++ r).

(** [DELETE FROM t WHERE c]. *)
Definition delete_where {A : Type} (c : A → Prop) `{∀ a, Decision (c a)}
    (t : list A) : list A :=
  filter (λ a, ¬ c a) t.

(** [s LIKE pat] with no [ESCAPE] clause, compared byte for byte: [%]
    matches any run of characters and [_] any one character. *)
Fixpoint like (pat s : string) : bool :=
  match pat with
  | EmptyString =>
      match s with EmptyString => true | String _ _ => false end
  | String c pat' =>
      if Ascii.eqb c "%"%char then
        (fix any (s : string) : bool :=
           like pat' s
           || match s with
              | EmptyString => false
              | String _ s' => any s'
              end) s
      else
        match s with
        | EmptyString => false
        | String d s' => (Ascii.eqb c "_"%char || Ascii.eqb c d) && like pat' s'
        end
  end.

End Sql.

(** ** The session executor and the [accesscontrol] names *)

(** A Go [error] value. *)
Definition error := string.

(** One statement run on a session: it fails with the driver's error and
    leaves the tables alone, or it runs. *)
Definition Sess (A : Type) : Type := DB → DB * (error + A).

#[global] Instance Sess_ret : MRet Sess := λ A a db, (db, inr a).
#[global] Instance Sess_bind : MBind Sess := λ A B k m db,
  match m db with
  | (db', inl e) => (db', inl e)
  | (db', inr a) => k a db'
  end.

(** [sess.Exec(stmt...)]; [fault] is what the driver answers. *)
Definition Exec (fault : option error) (stmt : DB → DB) : Sess unit :=
  λ db, match fault with
        | Some e => (db, inl e)
        | None => (stmt db, inr tt)
        end.

(** [sess.SQL(q, params...).Find(&rows)]. *)
Definition Find {A : Type} (fault : option error) (q : DB → list A)
    : Sess (list A) :=
  λ db, match fault with
        | Some e => (db, inl e)
        | None => (db, inr (q db))
        end.

(** A callback handed to the session executor: the tables it leaves, the
    final values of the variables it captured, the error it returns. *)
Definition Callback (L : Type) : Type := DB → DB * L * option error.

(** Modelled from the spec: [db.DB.WithDbSession] (package [infra/db]) is not
    part of the sources.  "exposes [WithSession(ctx, func(session) error)
    error], running the callback inside a transactional scope and propagating
    the callback's error as the overall error", "with guaranteed rollback on
    error and guaranteed commit only on full success".  Variables captured by
    the callback live in memory and keep what the callback wrote. *)
Definition WithDbSession {L : Type} (callback : Callback L) : Callback L :=
  λ db, match callback db with
        | (db', l, None) => (db', l, None)
        | (_, l, Some e) => (db, l, Some e)
        end.

(** The names of package [accesscontrol] the store refers to. *)
Module accesscontrol.

(** Modelled from the spec: [accesscontrol.GlobalOrgID] is not part of the
    sources.  "user-global records ([OrgID = 0], the reserved global
    scope)". *)
Definition GlobalOrgID : Z := 0.

(** Modelled from the spec: [accesscontrol.RoleGrafanaAdmin] is not part of
    the sources.  The builtin role named [Grafana Admin]. *)
Definition RoleGrafanaAdmin : string := "Grafana Admin".

(** Modelled from the spec: [accesscontrol.Scope] is not part of the
    sources.  An instance scope is ["<resource>:<attribute>:<value>"]. *)
Definition Scope (resource attribute value : string) : string :=
  resource +:+ ":" +:+ attribute +:+ ":" +:+ value.

End accesscontrol.

(** [strconv.FormatInt(i, 10)]. *)
Definition FormatInt (i : Z) : string := NilZero.string_of_int (Z.to_int i).

(** [accesscontrol.Permission]. *)
Record Permission := { Action : string; Scope : string }.

#[global] Instance Permission_eq_dec : EqDecision Permission.
Proof. solve_decision. Defined.

(** A session body that captures no variable, as a callback. *)
Definition callback_of (body : Sess unit) : Callback unit :=
  λ db, match body db with
        | (db', inl e) => (db', tt, Some e)
        | (db', inr _) => (db', tt, None)
        end.

(** ** The store *)

(** What the driver answers to each of the five statements of
    [DeleteUserPermissions], in the order of the source. *)
Record DeleteFaults := {
  fault_delete_user_role : option error;
  fault_delete_user_scope : option error;
  fault_select_role : option error;
  fault_delete_permission : option error;
  fault_delete_role : option error }.

Definition no_delete_faults : DeleteFaults :=
  {| fault_delete_user_role := None; fault_delete_user_scope := None;
     fault_select_role := None; fault_delete_permission := None;
     fault_delete_role := None |}.

(** [roleDeleteQuery]: ["DELETE FROM user_role WHERE user_id = ?"], with
    [" AND org_id = ?"] appended unless [orgID] is the global scope. *)
Definition roleDeleteQuery (orgID userID : Z) (ur : UserRoleRow) : Prop :=
  if decide (orgID ≠ accesscontrol.GlobalOrgID)
  then user_role_user_id ur = userID ∧ user_role_org_id ur = orgID
  else user_role_user_id ur = userID.

#[global] Instance roleDeleteQuery_dec orgID userID ur :
  Decision (roleDeleteQuery orgID userID ur).
Proof. unfold roleDeleteQuery. destruct (decide _); apply _. Defined.

(** [roleQuery]: ["SELECT id FROM role WHERE name = ?"], with
    [" AND org_id = ?"] appended unless [orgID] is the global scope. *)
Definition roleQuery (name : string) (orgID : Z) (r : RoleRow) : Prop :=
  if decide (orgID ≠ accesscontrol.GlobalOrgID)
  then role_name r = name ∧ role_org_id r = orgID
  else role_name r = name.

#[global] Instance roleQuery_dec name orgID r :
  Decision (roleQuery name orgID r).
Proof. unfold roleQuery. destruct (decide _); apply _. Defined.

(** [accesscontrol.GetUserPermissionsQuery], the fields the store reads. *)
Module GetUserPermissionsQuery.
Record t := {
  OrgID : Z;
  UserID : Z;
  TeamIDs : list Z;
  Roles : list string;
  Actions : list string }.
End GetUserPermissionsQuery.

(** The row type [UserRBACPermission] local to [GetUsersPermissions]. *)
Module UserRBACPermission.
Record t := { UserID : Z; Action : string; Scope : string }.
#[global] Instance UserRBACPermission_eq_dec : EqDecision t.
Proof. solve_decision. Defined.
End UserRBACPermission.

(** The row type [UserOrgRole] local to [GetUsersPermissions]. *)
Module UserOrgRole.
Record t := { UserID : Z; OrgRole : string; IsAdmin : bool }.
#[global] Instance UserOrgRole_eq_dec : EqDecision t.
Proof. solve_decision. Defined.
End UserOrgRole.

(** A row of the subquery [up] of [GetUsersPermissions]. *)
Module up.
Record t := { user_id : Z; org_id : Z; action : string; scope : string }.
#[global] Instance up_eq_dec : EqDecision t.
Proof. solve_decision. Defined.
End up.

(** What the driver answers to the two queries of [GetUsersPermissions]. *)
Record UsersFaults := {
  fault_find_permissions : option error;
  fault_find_roles : option error }.

Definition no_users_faults : UsersFaults :=
  {| fault_find_permissions := None; fault_find_roles := None |}.

Section Store.

(** [accesscontrol.ManagedUserRoleName] is not part of the sources: "managed
    per-user role names are deterministically derived from a user id". *)
Variable ManagedUserRoleName : Z → string.

(** "Delete user role assignments". *)
Definition delete_user_role (orgID userID : Z) (db : DB) : DB :=
  set_user_role
    (Sql.delete_where (roleDeleteQuery orgID userID) (user_role db)) db.

(** "Delete permissions that are scoped to user": ["DELETE FROM permission
    WHERE scope = ?"] with the scope [users:id:<userID>]. *)
Definition delete_user_scope (userID : Z) (db : DB) : DB :=
  set_permission
    (Sql.delete_where
       (λ p, permission_scope p
             = accesscontrol.Scope "users" "id" (FormatInt userID))
       (permission db))
    db.

(** [sess.SQL(roleQuery, roleParams...).Find(&roleIDs)]. *)
Definition select_role_ids (orgID userID : Z) (db : DB) : list Z :=
  role_id <$> filter (roleQuery (ManagedUserRoleName userID) orgID) (role db).

(** "Delete managed user permissions": ["DELETE FROM permission WHERE
    role_id IN(?,...)"]. *)
Definition delete_permission_in (roleIDs : list Z) (db : DB) : DB :=
  set_permission
    (Sql.delete_where (λ p, permission_role_id p ∈ roleIDs) (permission db))
    db.

(** "Delete managed user roles": ["DELETE FROM role WHERE id IN(?,...)"]. *)
Definition delete_role_in (roleIDs : list Z) (db : DB) : DB :=
  set_role (Sql.delete_where (λ r, role_id r ∈ roleIDs) (role db)) db.

(** The function handed to [WithDbSession] by [DeleteUserPermissions]. *)
Definition DeleteUserPermissions_session (faults : DeleteFaults)
    (orgID userID : Z) : Sess unit :=
  _ ← Exec (fault_delete_user_role faults) (delete_user_role orgID userID);
  (* only delete scopes to user if all permissions is removed *)
  _ ← (if decide (orgID = accesscontrol.GlobalOrgID)
       then Exec (fault_delete_user_scope faults) (delete_user_scope userID)
       else mret tt);
  roleIDs ← Find (fault_select_role faults) (select_role_ids orgID userID);
  if decide (length roleIDs = 0%nat) then mret tt
  else
    _ ← Exec (fault_delete_permission faults) (delete_permission_in roleIDs);
    Exec (fault_delete_role faults) (delete_role_in roleIDs).

Definition DeleteUserPermissions (faults : DeleteFaults) (orgID userID : Z)
    (db : DB) : DB * option error :=
  let '(db', _, err) :=
    WithDbSession
      (callback_of (DeleteUserPermissions_session faults orgID userID)) db in
  (db', err).

(** The tables a run of the session leaves when no statement fails. *)
Definition committed (orgID userID : Z) (db : DB) : DB :=
  let db1 := delete_user_role orgID userID db in
  let db2 := if decide (orgID = accesscontrol.GlobalOrgID)
             then delete_user_scope userID db1 else db1 in
  let roleIDs := select_role_ids orgID userID db2 in
  if decide (length roleIDs = 0%nat) then db2
  else delete_role_in roleIDs (delete_permission_in roleIDs db2).

(** [accesscontrol.UserRolesFilter] is not part of the sources.  It returns a
    SQL fragment that continues the [FROM] clause of the query, with its
    parameters; here it is what that fragment makes of the rows of
    [permission INNER JOIN role]. *)
Variable UserRolesFilter :
  Z → Z → list Z → list string → DB →
  list (PermissionRow * RoleRow) → list (PermissionRow * RoleRow).

(** The function handed to [WithDbSession] by [GetUserPermissions]; the
    captured variable is [result], empty when the callback starts. *)
Definition GetUserPermissions_session (fault : option error)
    (query : GetUserPermissionsQuery.t) : Callback (list Permission) :=
  λ db,
    if decide (GetUserPermissionsQuery.UserID query = 0
               ∧ length (GetUserPermissionsQuery.TeamIDs query) = 0%nat
               ∧ length (GetUserPermissionsQuery.Roles query) = 0%nat)
    then (* no permission to fetch *) (db, [], None)
    else
      let q (db : DB) : list (PermissionRow * RoleRow) :=
        UserRolesFilter
          (GetUserPermissionsQuery.OrgID query)
          (GetUserPermissionsQuery.UserID query)
          (GetUserPermissionsQuery.TeamIDs query)
          (GetUserPermissionsQuery.Roles query) db
          (Sql.inner_join (λ x, role_id x.2 = permission_role_id x.1)
             (permission db) (role db)) in
      let q (db : DB) : list (PermissionRow * RoleRow) :=
        if decide (0 < length (GetUserPermissionsQuery.Actions query))%nat
        then filter (λ pr : PermissionRow * RoleRow, permission_action pr.1
                           ∈ GetUserPermissionsQuery.Actions query) (q db)
        else q db in
      match
        Find fault
          (λ db, (λ pr, {| Action := permission_action pr.1;
                           Scope := permission_scope pr.1 |}) <$> q db) db
      with
      | (db', inl err) => (db', [], Some err)
      | (db', inr result) => (db', result, None)
      end.

Definition GetUserPermissions (fault : option error)
    (query : GetUserPermissionsQuery.t) (db : DB)
    : DB * list Permission * option error :=
  WithDbSession (GetUserPermissions_session fault query) db.

(** The four [SELECT]s under [FROM ( ... ) AS up], in the order of the
    source. *)
Definition up_user_role (db : DB) : list up.t :=
  (λ x, {| up.user_id := user_role_user_id x.2;
           up.org_id := user_role_org_id x.2;
           up.action := permission_action x.1;
           up.scope := permission_scope x.1 |})
  <$> Sql.inner_join (λ x, user_role_role_id x.2 = permission_role_id x.1)
        (permission db) (user_role db).

Definition up_team_role (db : DB) : list up.t :=
  (λ x, {| up.user_id := team_member_user_id x.2;
           up.org_id := team_role_org_id x.1.2;
           up.action := permission_action x.1.1;
           up.scope := permission_scope x.1.1 |})
  <$> Sql.inner_join (λ x, team_member_team_id x.2 = team_role_team_id x.1.2)
        (Sql.inner_join (λ x, team_role_role_id x.2 = permission_role_id x.1)
           (permission db) (team_role db))
        (team_member db).

Definition up_builtin_role (db : DB) : list up.t :=
  (λ x, {| up.user_id := org_user_user_id x.2;
           up.org_id := builtin_role_org_id x.1.2;
           up.action := permission_action x.1.1;
           up.scope := permission_scope x.1.1 |})
  <$> Sql.inner_join (λ x, org_user_role x.2 = builtin_role_role x.1.2)
        (Sql.inner_join (λ x, builtin_role_role_id x.2 = permission_role_id x.1)
           (permission db) (builtin_role db))
        (org_user db).

Definition up_grafana_admin (db : DB) : list up.t :=
  let sa := Tables.user_id <$> filter (λ u, user_is_admin u) (user db) in
  (λ x, {| up.user_id := x.2;
           up.org_id := builtin_role_org_id x.1.2;
           up.action := permission_action x.1.1;
           up.scope := permission_scope x.1.1 |})
  <$> filter (λ x, builtin_role_role x.1.2 = accesscontrol.RoleGrafanaAdmin)
        (Sql.inner_join (λ _, 1 = 1)
           (Sql.inner_join
              (λ x, builtin_role_role_id x.2 = permission_role_id x.1)
              (permission db) (builtin_role db))
           sa).

Definition up_rows (db : DB) : list up.t :=
  Sql.union
    (Sql.union (Sql.union (up_user_role db) (up_team_role db))
       (up_builtin_role db))
    (up_grafana_admin db).

(** "Find permissions": [SELECT user_id, action, scope FROM ( ... ) AS up
    WHERE (org_id = ? OR org_id = ?) AND action LIKE ?] with the parameters
    [GlobalOrgID], [orgID] and [actionPrefix+"%"]. *)
Definition find_permissions (orgID : Z) (actionPrefix : string) (db : DB)
    : list UserRBACPermission.t :=
  (λ r, {| UserRBACPermission.UserID := up.user_id r;
           UserRBACPermission.Action := up.action r;
           UserRBACPermission.Scope := up.scope r |})
  <$> filter (λ r, (up.org_id r = accesscontrol.GlobalOrgID
                    ∨ up.org_id r = orgID)
                   ∧ Sql.like (actionPrefix +:+ "%") (up.action r))
        (up_rows db).

(** "Find roles": [SELECT u.id, ou.role, u.is_admin FROM user AS u LEFT JOIN
    org_user AS ou ON u.id = ou.user_id WHERE u.is_admin OR ou.org_id = ?].
    A NULL [ou.role] is read into the Go string as [""]. *)
Definition find_roles (orgID : Z) (db : DB) : list UserOrgRole.t :=
  (λ x, {| UserOrgRole.UserID := Tables.user_id x.1;
           UserOrgRole.OrgRole := default "" (org_user_role <$> x.2);
           UserOrgRole.IsAdmin := user_is_admin x.1 |})
  <$> filter (λ x, user_is_admin x.1 ∨ org_user_org_id <$> x.2 = Some orgID)
        (Sql.left_join (λ x, Tables.user_id x.1 = org_user_user_id x.2)
           (user db) (org_user db)).

(** The function handed to [WithDbSession] by [GetUsersPermissions]; the
    captured variables are [dbPerms] and [dbRoles], both empty when the
    callback starts. *)
Definition GetUsersPermissions_session (faults : UsersFaults) (orgID : Z)
    (actionPrefix : string)
    : Callback (list UserRBACPermission.t * list UserOrgRole.t) :=
  λ db,
    match Find (fault_find_permissions faults)
            (find_permissions orgID actionPrefix) db with
    | (db1, inl err) => (db1, ([], []), Some err)
    | (db1, inr dbPerms) =>
        match Find (fault_find_roles faults) (find_roles orgID) db1 with
        | (db2, inl err) => (db2, (dbPerms, []), Some err)
        | (db2, inr dbRoles) => (db2, (dbPerms, dbRoles), None)
        end
    end.

(** [mapped[k] = append(mapped[k], v)]. *)
Definition map_append {V : Type} (k : Z) (v : V) (m : gmap Z (list V))
    : gmap Z (list V) :=
  <[k := default [] (m !! k) ++ [v]]> m.

(** The loop over [dbPerms]. *)
Definition mapped_of (dbPerms : list UserRBACPermission.t)
    : gmap Z (list Permission) :=
  foldl (λ mapped r,
           map_append (UserRBACPermission.UserID r)
             {| Action := UserRBACPermission.Action r;
                Scope := UserRBACPermission.Scope r |} mapped)
    ∅ dbPerms.

(** The loop over [dbRoles]. *)
Definition roles_of (dbRoles : list UserOrgRole.t) : gmap Z (list string) :=
  foldl (λ roles r,
           let roles :=
             if decide (UserOrgRole.OrgRole r ≠ "")
             then <[UserOrgRole.UserID r := [UserOrgRole.OrgRole r]]> roles
             else roles in
           if UserOrgRole.IsAdmin r
           then map_append (UserOrgRole.UserID r)
                  accesscontrol.RoleGrafanaAdmin roles
           else roles)
    ∅ dbRoles.

(** [GetUsersPermissions] returns the list of user permissions indexed by
    UserID. *)
Definition GetUsersPermissions (faults : UsersFaults) (orgID : Z)
    (actionPrefix : string) (db : DB)
    : DB * (gmap Z (list Permission) * gmap Z (list string) * option error) :=
  let '(db', (dbPerms, dbRoles), err) :=
    WithDbSession (GetUsersPermissions_session faults orgID actionPrefix) db in
  (db', (mapped_of dbPerms, roles_of dbRoles, err)).

End Store.

(** ** Reading the results *)

(** The permissions of the rows of one user, in row order. *)
Definition perms_of (userID : Z) (rows : list UserRBACPermission.t)
    : list Permission :=
  (λ r, {| Action := UserRBACPermission.Action r;
           Scope := UserRBACPermission.Scope r |})
  <$> filter (λ r, UserRBACPermission.UserID r = userID) rows.

(** A Go map entry: absent, or a non-empty slice. *)
Definition entry {V : Type} (l : list V) : option (list V) :=
  match l with [] => None | _ => Some l end.

(** How many times [p] occurs in [l]. *)
Definition occurrences {V : Type} `{EqDecision V} (p : V) (l : list V) : nat :=
  length (filter (λ q, q = p) l).

(** Following the spec's words: "the union, as a flat unordered list
    (duplicates possible, not deduplicated), of permissions reachable via
    four independent grant paths" — the rows of the four [SELECT]s, one per
    grant path. *)
Definition grant_paths (db : DB) : list up.t :=
  up_user_role db ++ up_team_role db ++ up_builtin_role db
  ++ up_grafana_admin db.

(** Row [r] of a grant path gives [userID] the permission [p] within the
    restriction of the query: in [orgID] or the global scope, the action
    passing [LIKE]. *)
Definition reaches (orgID : Z) (actionPrefix : string) (userID : Z)
    (p : Permission) (r : up.t) : Prop :=
  up.user_id r = userID ∧ up.action r = Action p ∧ up.scope r = Scope p
  ∧ (up.org_id r = accesscontrol.GlobalOrgID ∨ up.org_id r = orgID)
  ∧ Sql.like (actionPrefix +:+ "%") (up.action r).

#[global] Instance reaches_dec orgID actionPrefix userID p r :
  Decision (reaches orgID actionPrefix userID p r).
Proof. unfold reaches. apply _. Defined.

(** Following the claim's words: the grant paths through which [userID]
    reaches [p], one row per path. *)
Definition reaching_paths (orgID : Z) (actionPrefix : string) (userID : Z)
    (p : Permission) (db : DB) : list up.t :=
  filter (reaches orgID actionPrefix userID p) (grant_paths db).

(** Following the spec's words: "each user's basic roles (their org role,
    and [Grafana Admin] if globally administrative)", the org role being the
    one held within [orgID]. *)
Definition basic_roles (orgID userID : Z) (db : DB) : list string :=
  (org_user_role
   <$> filter (λ ou, org_user_user_id ou = userID ∧ org_user_org_id ou = orgID)
         (org_user db))
  ++ (if bool_decide (Exists (λ u, Tables.user_id u = userID ∧ user_is_admin u)
                        (user db))
      then [accesscontrol.RoleGrafanaAdmin] else []).

(** Following the spec's words: the action "starts with [actionPrefix]",
    byte for byte (Go's [strings.HasPrefix]). *)
Definition HasPrefix (s prefix : string) : bool := String.prefix prefix s.

(** A pattern without the wildcards of [LIKE]. *)
Fixpoint plain (pat : string) : bool :=
  match pat with
  | EmptyString => true
  | String c pat' =>
      negb (Ascii.eqb c "%"%char) && negb (Ascii.eqb c "_"%char) && plain pat'
  end.


(** [(org_id = ? OR org_id = ?)] with [GlobalOrgID] and [orgID]. *)
Definition in_scope (orgID org : Z) : Prop :=
  org = accesscontrol.GlobalOrgID ∨ org = orgID.

(** The permission a row of [up] carries. *)
Definition permission_of (r : up.t) : Permission :=
  {| Action := up.action r; Scope := up.scope r |}.

(** Every permission row belongs to a role row. *)
Definition permissions_owned (db : DB) : Prop :=
  ∀ p, p ∈ permission db →
       ∃ r, r ∈ role db ∧ role_id r = permission_role_id p.

(** ** Sample data *)

(** The reserved name of a user's managed role, as the tests of the store
    spell it. *)
Definition sample_role_name (userID : Z) : string :=
  "managed:users:" +:+ FormatInt userID +:+ ":permissions".

(** A filter fragment that selects the roles assigned directly to the
    user, in [orgID] or globally. *)
Definition sample_filter (orgID userID : Z) (_ : list Z) (_ : list string)
    (db : DB) (rows : list (PermissionRow * RoleRow))
    : list (PermissionRow * RoleRow) :=
  filter (λ pr, role_id pr.2
                ∈ user_role_role_id
                  <$> filter (λ ur, user_role_user_id ur = userID
                                    ∧ (user_role_org_id ur = orgID
                                       ∨ user_role_org_id ur
                                         = accesscontrol.GlobalOrgID))
                        (user_role db))
    rows.

(** User 5 reaches [teams:read] on [teams:*] in organization 1 twice: by a
    direct assignment of role 1 and through team 3, which holds role 1. *)
Definition db_two_paths : DB :=
  {| permission := [ {| permission_role_id := 1;
                        permission_action := "teams:read";
                        permission_scope := "teams:*" |} ];
     role := [ {| role_id := 1; role_name := "custom"; role_org_id := 1 |} ];
     user_role := [ {| user_role_org_id := 1; user_role_user_id := 5;
                       user_role_role_id := 1 |} ];
     team_role := [ {| team_role_org_id := 1; team_role_team_id := 3;
                       team_role_role_id := 1 |} ];
     team_member := [ {| team_member_team_id := 3;
                         team_member_user_id := 5 |} ];
     builtin_role := [];
     org_user := [ {| org_user_org_id := 1; org_user_user_id := 5;
                      org_user_role := "Viewer" |} ];
     user := [ {| Tables.user_id := 5; user_is_admin := false |} ] |}.

(** User 1 is a global administrator and an Editor of organization 2; the
    user holds no role in organization 1. *)
Definition db_admin_elsewhere : DB :=
  {| permission := []; role := []; user_role := []; team_role := [];
     team_member := []; builtin_role := [];
     org_user := [ {| org_user_org_id := 2; org_user_user_id := 1;
                      org_user_role := "Editor" |} ];
     user := [ {| Tables.user_id := 1; user_is_admin := true |} ] |}.

(** User 7 in organizations 1 and 2 and globally: a managed role with one
    permission in each, a direct assignment in each organization, and a
    permission of an unrelated role that names user 7 in its scope. *)
Definition db_user7 : DB :=
  {| permission :=
       [ {| permission_role_id := 10; permission_action := "dashboards:read";
            permission_scope := "dashboards:uid:a" |};
         {| permission_role_id := 20; permission_action := "dashboards:read";
            permission_scope := "dashboards:uid:b" |};
         {| permission_role_id := 30; permission_action := "teams:read";
            permission_scope := "teams:*" |};
         {| permission_role_id := 40; permission_action := "users:read";
            permission_scope := "users:id:7" |};
         {| permission_role_id := 10; permission_action := "users:write";
            permission_scope := "users:id:7" |} ];
     role :=
       [ {| role_id := 10; role_name := "managed:users:7:permissions";
            role_org_id := 1 |};
         {| role_id := 20; role_name := "managed:users:7:permissions";
            role_org_id := 2 |};
         {| role_id := 30; role_name := "managed:users:7:permissions";
            role_org_id := 0 |};
         {| role_id := 40; role_name := "custom"; role_org_id := 1 |} ];
     user_role :=
       [ {| user_role_org_id := 1; user_role_user_id := 7;
            user_role_role_id := 10 |};
         {| user_role_org_id := 2; user_role_user_id := 7;
            user_role_role_id := 20 |};
         {| user_role_org_id := 1; user_role_user_id := 8;
            user_role_role_id := 40 |} ];
     team_role := []; team_member := []; builtin_role := [];
     org_user := [ {| org_user_org_id := 1; org_user_user_id := 7;
                      org_user_role := "Viewer" |} ];
     user := [ {| Tables.user_id := 7; user_is_admin := false |};
               {| Tables.user_id := 8; user_is_admin := false |} ] |}.


(** ** Lists and filters *)

Lemma filter_ext_in {A : Type} (P Q : A → Prop) `{∀ x, Decision (P x)}
    `{∀ x, Decision (Q x)} (l : list A) :
  (∀ x, x ∈ l → P x ↔ Q x) → filter P l = filter Q l.
Proof.
  induction l as [|a l IH]; intros Hl; [done|].
  rewrite !filter_cons.
  assert (P a ↔ Q a) as Ha by (apply Hl; left).
  rewrite IH; [|intros x Hx; apply Hl; by right].
  destruct (decide (P a)), (decide (Q a)); tauto.
Qed.

Lemma filter_id_in {A : Type} (P : A → Prop) `{∀ x, Decision (P x)}
    (l : list A) :
  (∀ x, x ∈ l → P x) → filter P l = l.
Proof.
  induction l as [|a l IH]; intros Hl; [done|].
  rewrite filter_cons, decide_True by (apply Hl; left).
  f_equal. apply IH. intros x Hx. apply Hl. by right.
Qed.

Lemma filter_nil_in {A : Type} (P : A → Prop) `{∀ x, Decision (P x)}
    (l : list A) :
  filter P l = [] ↔ ∀ x, x ∈ l → ¬ P x.
Proof.
  split.
  - intros Hnil x Hx HP.
    assert (x ∈ filter P l) as Hin by (apply list_elem_of_filter; done).
    rewrite Hnil in Hin. by apply not_elem_of_nil in Hin.
  - intros Hl. destruct (filter P l) as [|a k] eqn:E; [done|].
    assert (a ∈ filter P l) as Hin by (rewrite E; left).
    apply list_elem_of_filter in Hin as [HP Ha]. by destruct (Hl a Ha).
Qed.

Lemma NoDup_fmap_inj_in {A B : Type} (f : A → B) (l : list A) (x y : A) :
  NoDup (f <$> l) → x ∈ l → y ∈ l → f x = f y → x = y.
Proof.
  induction l as [|a l IH]; intros Hnd Hx Hy Hf.
  - by apply not_elem_of_nil in Hx.
  - rewrite fmap_cons in Hnd. apply NoDup_cons in Hnd as [Ha Hnd].
    apply elem_of_cons in Hx as [->|Hx]; apply elem_of_cons in Hy as [->|Hy].
    + done.
    + destruct Ha. rewrite Hf. by apply list_elem_of_fmap_2.
    + destruct Ha. rewrite <- Hf. by apply list_elem_of_fmap_2.
    + by apply IH.
Qed.

(** ** [DeleteUserPermissions] *)

Section DeleteUserPermissions_proofs.

Variable ManagedUserRoleName : Z → string.

(** The lookup of the managed role reads the [role] table only. *)
Lemma select_role_ids_role orgID userID db1 db2 :
  role db1 = role db2 →
  select_role_ids ManagedUserRoleName orgID userID db1 = select_role_ids ManagedUserRoleName orgID userID db2.
Proof. unfold select_role_ids. by intros ->. Qed.

Lemma role_after_assignments orgID userID db :
  role (if decide (orgID = accesscontrol.GlobalOrgID)
        then delete_user_scope userID (delete_user_role orgID userID db)
        else delete_user_role orgID userID db) = role db.
Proof. by destruct (decide _). Qed.

(** The outcome of a run, statement by statement. *)
Lemma DeleteUserPermissions_run faults orgID userID db :
  DeleteUserPermissions ManagedUserRoleName faults orgID userID db =
  match fault_delete_user_role faults with
  | Some e => (db, Some e)
  | None =>
      match (if decide (orgID = accesscontrol.GlobalOrgID)
             then fault_delete_user_scope faults else None) with
      | Some e => (db, Some e)
      | None =>
          match fault_select_role faults with
          | Some e => (db, Some e)
          | None =>
              if decide (length (select_role_ids ManagedUserRoleName orgID userID db) = 0%nat)
              then (committed ManagedUserRoleName orgID userID db, None)
              else
                match fault_delete_permission faults with
                | Some e => (db, Some e)
                | None =>
                    match fault_delete_role faults with
                    | Some e => (db, Some e)
                    | None => (committed ManagedUserRoleName orgID userID db, None)
                    end
                end
          end
      end
  end.
Proof.
  unfold DeleteUserPermissions, committed, WithDbSession,
    callback_of, DeleteUserPermissions_session, mbind, Sess_bind, mret,
    Sess_ret, Exec, Find.
  destruct faults as [[e1|] [e2|] [e3|] [e4|] [e5|]]; simpl;
    destruct (decide (orgID = accesscontrol.GlobalOrgID)); simpl;
    try reflexivity.
  all: repeat match goal with
       | |- context [select_role_ids _ ?o ?u ?d] =>
           tryif constr_eq d db then fail
           else rewrite (select_role_ids_role o u d db) by reflexivity
       end.
  all: destruct (decide (length _ = 0%nat)); reflexivity.
Qed.

(** A run that reports no error leaves the committed tables. *)
Lemma DeleteUserPermissions_success faults orgID userID db db' :
  DeleteUserPermissions ManagedUserRoleName faults orgID userID db = (db', None) →
  db' = committed ManagedUserRoleName orgID userID db.
Proof.
  rewrite DeleteUserPermissions_run.
  repeat (case_match; try discriminate); congruence.
Qed.

(** A run that reports an error leaves the tables as they were. *)
Lemma DeleteUserPermissions_rollback faults orgID userID db db' e :
  DeleteUserPermissions ManagedUserRoleName faults orgID userID db = (db', Some e) → db' = db.
Proof.
  rewrite DeleteUserPermissions_run.
  repeat (case_match; try discriminate); congruence.
Qed.

Lemma committed_user_role orgID userID db :
  user_role (committed ManagedUserRoleName orgID userID db)
  = Sql.delete_where (roleDeleteQuery orgID userID) (user_role db).
Proof. unfold committed. by repeat destruct (decide _). Qed.

Lemma committed_role orgID userID db :
  role (committed ManagedUserRoleName orgID userID db)
  = Sql.delete_where (λ r, role_id r ∈ select_role_ids ManagedUserRoleName orgID userID db)
      (role db).
Proof.
  unfold committed.
  rewrite (select_role_ids_role orgID userID _ db)
    by apply role_after_assignments.
  destruct (decide (length _ = 0%nat)) as [Hlen|Hlen].
  - rewrite role_after_assignments.
    apply nil_length_inv in Hlen. rewrite Hlen.
    unfold Sql.delete_where. symmetry. apply filter_id_in.
    intros r _. apply not_elem_of_nil.
  - simpl. by rewrite role_after_assignments.
Qed.

Lemma committed_permission orgID userID db :
  permission (committed ManagedUserRoleName orgID userID db)
  = Sql.delete_where
      (λ p, permission_role_id p ∈ select_role_ids ManagedUserRoleName orgID userID db)
      (if decide (orgID = accesscontrol.GlobalOrgID)
       then Sql.delete_where
              (λ p, permission_scope p
                    = accesscontrol.Scope "users" "id" (FormatInt userID))
              (permission db)
       else permission db).
Proof.
  unfold committed.
  rewrite (select_role_ids_role orgID userID _ db)
    by apply role_after_assignments.
  destruct (decide (length _ = 0%nat)) as [Hlen|Hlen].
  - apply nil_length_inv in Hlen. rewrite Hlen.
    unfold Sql.delete_where at 1. rewrite filter_id_in.
    + by destruct (decide (orgID = _)).
    + intros r _. apply not_elem_of_nil.
  - simpl. by destruct (decide (orgID = _)).
Qed.

Lemma committed_other_tables orgID userID db :
  team_role (committed ManagedUserRoleName orgID userID db) = team_role db
  ∧ team_member (committed ManagedUserRoleName orgID userID db) = team_member db
  ∧ builtin_role (committed ManagedUserRoleName orgID userID db) = builtin_role db
  ∧ org_user (committed ManagedUserRoleName orgID userID db) = org_user db
  ∧ user (committed ManagedUserRoleName orgID userID db) = user db.
Proof. unfold committed. by repeat destruct (decide _). Qed.

Lemma DB_eq (db1 db2 : DB) :
  permission db1 = permission db2 → role db1 = role db2 →
  user_role db1 = user_role db2 → team_role db1 = team_role db2 →
  team_member db1 = team_member db2 → builtin_role db1 = builtin_role db2 →
  org_user db1 = org_user db2 → user db1 = user db2 → db1 = db2.
Proof. destruct db1, db2; simpl; congruence. Qed.

(** Once the session has committed, the lookup finds no managed role. *)
Lemma committed_no_managed_role orgID userID db :
  select_role_ids ManagedUserRoleName orgID userID
    (committed ManagedUserRoleName orgID userID db) = [].
Proof.
  unfold select_role_ids at 1. rewrite committed_role.
  rewrite (proj2 (filter_nil_in _ _)); [done|]. intros r Hr HQ.
  apply list_elem_of_filter in Hr as [Hout Hr]. apply Hout.
  unfold select_role_ids. apply list_elem_of_fmap_2.
  by apply list_elem_of_filter.
Qed.

(** Committing twice is committing once. *)
Lemma committed_idem orgID userID db :
  committed ManagedUserRoleName orgID userID
    (committed ManagedUserRoleName orgID userID db)
  = committed ManagedUserRoleName orgID userID db.
Proof.
  pose proof (committed_other_tables orgID userID
                (committed ManagedUserRoleName orgID userID db))
    as (? & ? & ? & ? & ?).
  apply DB_eq; try done.
  - rewrite committed_permission, committed_no_managed_role.
    unfold Sql.delete_where at 1. rewrite filter_id_in
      by (intros ? _; apply not_elem_of_nil).
    destruct (decide (orgID = _)); [|done].
    unfold Sql.delete_where at 1. apply filter_id_in. intros p Hp.
    rewrite committed_permission, decide_True in Hp by done.
    apply list_elem_of_filter in Hp as [_ Hp].
    by apply list_elem_of_filter in Hp as [Hp _].
  - rewrite committed_role, committed_no_managed_role.
    unfold Sql.delete_where. apply filter_id_in.
    intros ? _. apply not_elem_of_nil.
  - rewrite committed_user_role. unfold Sql.delete_where at 1.
    apply filter_id_in. intros ur Hur.
    rewrite committed_user_role in Hur.
    by apply list_elem_of_filter in Hur as [Hur _].
Qed.

(** C1. If a statement of [DeleteUserPermissions] fails, whichever of the
    five it is (deleting the user-role rows, deleting the rows scoped to the
    user, looking up the managed role, deleting its permission rows, deleting
    the role row), the operation returns that statement's error and the
    tables are what they were before the call; and whenever the operation
    returns an error the tables are unchanged. *)
Theorem DeleteUserPermissions_atomic faults orgID userID db e :
  let run := DeleteUserPermissions ManagedUserRoleName faults orgID userID db in
  let scoped_ok :=
    orgID = accesscontrol.GlobalOrgID → fault_delete_user_scope faults = None in
  let found := select_role_ids ManagedUserRoleName orgID userID db ≠ [] in
  (fault_delete_user_role faults = Some e → run = (db, Some e))
  ∧ (fault_delete_user_role faults = None →
     orgID = accesscontrol.GlobalOrgID →
     fault_delete_user_scope faults = Some e → run = (db, Some e))
  ∧ (fault_delete_user_role faults = None → scoped_ok →
     fault_select_role faults = Some e → run = (db, Some e))
  ∧ (fault_delete_user_role faults = None → scoped_ok →
     fault_select_role faults = None → found →
     fault_delete_permission faults = Some e → run = (db, Some e))
  ∧ (fault_delete_user_role faults = None → scoped_ok →
     fault_select_role faults = None → found →
     fault_delete_permission faults = None →
     fault_delete_role faults = Some e → run = (db, Some e))
  ∧ (∀ db' e', run = (db', Some e') → db' = db).
Proof.
  intros run scoped_ok found. subst run scoped_ok found.
  rewrite DeleteUserPermissions_run.
  repeat split.
  - by intros ->.
  - intros -> -> ->. by rewrite decide_True.
  - intros -> Hs ->. destruct (decide (orgID = _)) as [Hg|]; [|done].
    by rewrite (Hs Hg).
  - intros -> Hs -> Hf ->. destruct (decide (orgID = _)) as [Hg|].
    + rewrite (Hs Hg). rewrite decide_False; [done|].
      intros Hl. by apply nil_length_inv in Hl.
    + rewrite decide_False; [done|].
      intros Hl. by apply nil_length_inv in Hl.
  - intros -> Hs -> Hf -> ->. destruct (decide (orgID = _)) as [Hg|].
    + rewrite (Hs Hg). rewrite decide_False; [done|].
      intros Hl. by apply nil_length_inv in Hl.
    + rewrite decide_False; [done|].
      intros Hl. by apply nil_length_inv in Hl.
  - intros db' e' Hrun. rewrite <- DeleteUserPermissions_run in Hrun.
    by eapply DeleteUserPermissions_rollback.
Qed.

(** C4. When the lookup finds no managed role for [UserID] (within [OrgID],
    unless it is the global scope) and the statements that run do not fail,
    [DeleteUserPermissions] returns no error and leaves the tables as its
    first two deletions left them, whatever the driver would have answered
    to the two later statements; in particular a call that follows a
    successful call for the same [OrgID] and [UserID] returns no error and
    changes nothing. *)
Theorem DeleteUserPermissions_idempotent faults orgID userID db :
  fault_delete_user_role faults = None →
  (orgID = accesscontrol.GlobalOrgID → fault_delete_user_scope faults = None) →
  fault_select_role faults = None →
  (select_role_ids ManagedUserRoleName orgID userID db = [] →
   DeleteUserPermissions ManagedUserRoleName faults orgID userID db
   = (if decide (orgID = accesscontrol.GlobalOrgID)
      then delete_user_scope userID (delete_user_role orgID userID db)
      else delete_user_role orgID userID db, None))
  ∧ (∀ faults0 db0,
       DeleteUserPermissions ManagedUserRoleName faults0 orgID userID db0
       = (db, None) →
       DeleteUserPermissions ManagedUserRoleName faults orgID userID db
       = (db, None)).
Proof.
  intros H1 H2 H3.
  assert (∀ d, select_role_ids ManagedUserRoleName orgID userID d = [] →
               DeleteUserPermissions ManagedUserRoleName faults orgID userID d
               = (committed ManagedUserRoleName orgID userID d, None)) as Hrun.
  { intros d Hnone. rewrite DeleteUserPermissions_run, H1, H3, Hnone.
    destruct (decide (orgID = _)) as [Hg|]; [by rewrite (H2 Hg)|done]. }
  split.
  - intros Hnone. rewrite (Hrun _ Hnone). f_equal.
    unfold committed.
    rewrite (select_role_ids_role orgID userID _ db)
      by apply role_after_assignments.
    by rewrite Hnone.
  - intros faults0 db0 Hfirst.
    apply DeleteUserPermissions_success in Hfirst. subst db.
    rewrite Hrun by apply committed_no_managed_role.
    by rewrite committed_idem.
Qed.

(** C5, as amended. After a successful [DeleteUserPermissions], the
    user-role rows left are the former ones less those of [UserID] in
    [OrgID], or less all those of [UserID] when [OrgID] is the global scope.
    When [OrgID] is the global scope no permission row whose scope is
    [users:id:<UserID>] is left; when it is not, the permission rows removed
    are exactly those owned by a managed role the lookup found, whatever
    their scope. *)
Theorem DeleteUserPermissions_removes faults orgID userID db db' :
  DeleteUserPermissions ManagedUserRoleName faults orgID userID db
  = (db', None) →
  let user_scope := accesscontrol.Scope "users" "id" (FormatInt userID) in
  let roleIDs := select_role_ids ManagedUserRoleName orgID userID db in
  (orgID ≠ accesscontrol.GlobalOrgID →
   user_role db'
   = filter (λ ur, ¬ (user_role_user_id ur = userID
                      ∧ user_role_org_id ur = orgID)) (user_role db))
  ∧ (orgID = accesscontrol.GlobalOrgID →
     user_role db'
     = filter (λ ur, ¬ user_role_user_id ur = userID) (user_role db))
  ∧ (orgID = accesscontrol.GlobalOrgID →
     ∀ p, p ∈ permission db'
          ↔ p ∈ permission db ∧ permission_scope p ≠ user_scope
            ∧ permission_role_id p ∉ roleIDs)
  ∧ (orgID ≠ accesscontrol.GlobalOrgID →
     ∀ p, p ∈ permission db'
          ↔ p ∈ permission db ∧ permission_role_id p ∉ roleIDs).
Proof.
  intros Hrun user_scope roleIDs. subst user_scope roleIDs.
  apply DeleteUserPermissions_success in Hrun. subst db'.
  rewrite committed_user_role, committed_permission.
  unfold Sql.delete_where, roleDeleteQuery.
  split; [|split; [|split]]; intros Hg.
  - apply list_filter_iff. intros ur. by rewrite decide_True.
  - apply list_filter_iff. intros ur. by rewrite decide_False by tauto.
  - intros p. rewrite decide_True by done.
    rewrite !list_elem_of_filter. tauto.
  - intros p. rewrite decide_False by done.
    rewrite list_elem_of_filter. tauto.
Qed.

(** C9. When [OrgID] is not the global scope and role ids are unique (the
    primary key of the [role] table), a successful [DeleteUserPermissions]
    leaves unchanged the user-role rows of every other organization, the
    role rows of every other organization (the global scope included), the
    permission rows owned by those roles, and all the other tables. *)
Theorem DeleteUserPermissions_frame faults orgID userID db db' :
  orgID ≠ accesscontrol.GlobalOrgID →
  NoDup (role_id <$> role db) →
  DeleteUserPermissions ManagedUserRoleName faults orgID userID db
  = (db', None) →
  let elsewhere := filter (λ r, role_org_id r ≠ orgID) in
  filter (λ ur, user_role_org_id ur ≠ orgID) (user_role db')
  = filter (λ ur, user_role_org_id ur ≠ orgID) (user_role db)
  ∧ elsewhere (role db') = elsewhere (role db)
  ∧ filter (λ p, permission_role_id p ∈ role_id <$> elsewhere (role db))
      (permission db')
    = filter (λ p, permission_role_id p ∈ role_id <$> elsewhere (role db))
        (permission db)
  ∧ team_role db' = team_role db
  ∧ team_member db' = team_member db
  ∧ builtin_role db' = builtin_role db
  ∧ org_user db' = org_user db
  ∧ user db' = user db.
Proof.
  intros Hg Hkey Hrun elsewhere. subst elsewhere.
  apply DeleteUserPermissions_success in Hrun. subst db'.
  assert (∀ r, r ∈ role db → role_org_id r ≠ orgID →
               role_id r ∉ select_role_ids ManagedUserRoleName orgID userID db)
    as Hout.
  { intros r Hr Horg Hin. unfold select_role_ids in Hin.
    apply list_elem_of_fmap in Hin as (r' & Hid & Hr').
    apply list_elem_of_filter in Hr' as [HQ Hr'].
    unfold roleQuery in HQ. rewrite decide_True in HQ by done.
    destruct HQ as [_ Horg'].
    assert (r = r') by (by eapply NoDup_fmap_inj_in). congruence. }
  rewrite committed_user_role, committed_role, committed_permission.
  rewrite decide_False by done.
  unfold Sql.delete_where, roleDeleteQuery.
  split; [|split; [|split; [|apply committed_other_tables]]].
  - apply list_filter_filter_l. intros ur Horg.
    rewrite decide_True by done. tauto.
  - rewrite list_filter_filter. apply filter_ext_in.
    intros r Hr. split; [tauto|]. intros Horg. split; [done|]. by apply Hout.
  - rewrite list_filter_filter. apply filter_ext_in.
    intros p _. split; [tauto|]. intros Hin. split; [done|].
    apply list_elem_of_fmap in Hin as (r & -> & Hr).
    apply list_elem_of_filter in Hr as [Horg Hr]. by apply Hout.
Qed.

End DeleteUserPermissions_proofs.

(** ** [GetUserPermissions] *)

Section GetUserPermissions_proofs.

Variable UserRolesFilter :
  Z → Z → list Z → list string → DB →
  list (PermissionRow * RoleRow) → list (PermissionRow * RoleRow).

(** C7. With [UserID] 0 and no team and no role, [GetUserPermissions]
    returns the empty list and no error, whatever the organization, the
    actions, the tables, the filter fragment and the driver's answer, and
    leaves the tables alone. *)
Theorem GetUserPermissions_no_identity fault orgID actions db :
  GetUserPermissions UserRolesFilter fault
    {| GetUserPermissionsQuery.OrgID := orgID;
       GetUserPermissionsQuery.UserID := 0;
       GetUserPermissionsQuery.TeamIDs := [];
       GetUserPermissionsQuery.Roles := [];
       GetUserPermissionsQuery.Actions := actions |} db
  = (db, [], None).
Proof.
  unfold GetUserPermissions, WithDbSession, GetUserPermissions_session.
  reflexivity.
Qed.

(** C8. When [Actions] is not empty, every permission [GetUserPermissions]
    returns has an action equal to a member of [Actions]; when [Actions] is
    empty and the query runs, the result is every row the filter fragment
    lets through, with no restriction on the action. *)
Theorem GetUserPermissions_actions fault query db :
  let result := (GetUserPermissions UserRolesFilter fault query db).1.2 in
  (GetUserPermissionsQuery.Actions query ≠ [] →
   ∀ p, p ∈ result → Action p ∈ GetUserPermissionsQuery.Actions query)
  ∧ (GetUserPermissionsQuery.Actions query = [] →
     fault = None →
     ¬ (GetUserPermissionsQuery.UserID query = 0
        ∧ length (GetUserPermissionsQuery.TeamIDs query) = 0%nat
        ∧ length (GetUserPermissionsQuery.Roles query) = 0%nat) →
     result
     = (λ pr, {| Action := permission_action pr.1;
                 Scope := permission_scope pr.1 |})
       <$> UserRolesFilter
             (GetUserPermissionsQuery.OrgID query)
             (GetUserPermissionsQuery.UserID query)
             (GetUserPermissionsQuery.TeamIDs query)
             (GetUserPermissionsQuery.Roles query) db
             (Sql.inner_join (λ x, role_id x.2 = permission_role_id x.1)
                (permission db) (role db))).
Proof.
  intros result. subst result.
  unfold GetUserPermissions, WithDbSession, GetUserPermissions_session, Find.
  split.
  - intros Hne p.
    destruct (decide (_ ∧ _)); simpl; [by intros ?%not_elem_of_nil|].
    destruct fault; simpl; [by intros ?%not_elem_of_nil|].
    rewrite decide_True
      by (destruct (GetUserPermissionsQuery.Actions query); simpl; [done|lia]).
    intros (pr & -> & Hpr)%list_elem_of_fmap.
    by apply list_elem_of_filter in Hpr as [Hin _].
  - intros Hnil -> Hid.
    destruct (decide (_ ∧ _)) as [|_]; [done|]. simpl.
    rewrite Hnil. done.
Qed.

End GetUserPermissions_proofs.

(** ** [GetUsersPermissions] *)

Lemma lookup_map_append {V : Type} (k k' : Z) (v : V) (m : gmap Z (list V)) :
  map_append k v m !! k'
  = if decide (k = k') then Some (default [] (m !! k) ++ [v]) else m !! k'.
Proof.
  unfold map_append. destruct (decide (k = k')) as [->|Hne].
  - by rewrite lookup_insert_eq.
  - by rewrite lookup_insert_ne.
Qed.

Lemma entry_snoc {V : Type} (l : list V) (v : V) :
  entry (l ++ [v]) = Some (default [] (entry l) ++ [v]).
Proof. by destruct l. Qed.

Lemma mapped_of_snoc rows r :
  mapped_of (rows ++ [r])
  = map_append (UserRBACPermission.UserID r)
      {| Action := UserRBACPermission.Action r;
         Scope := UserRBACPermission.Scope r |} (mapped_of rows).
Proof. unfold mapped_of. by rewrite foldl_snoc. Qed.

(** The loop over [dbPerms] groups the rows by user, keeping their order. *)
Lemma mapped_of_lookup rows userID :
  mapped_of rows !! userID = entry (perms_of userID rows).
Proof.
  induction rows as [|r rows IH] using rev_ind; [done|].
  rewrite mapped_of_snoc, lookup_map_append.
  unfold perms_of. rewrite filter_app, fmap_app.
  rewrite filter_cons, filter_nil.
  destruct (decide (UserRBACPermission.UserID r = userID)) as [<-|Hne].
  - rewrite IH. simpl. by rewrite entry_snoc.
  - simpl. by rewrite app_nil_r.
Qed.

Lemma entry_is_Some {V : Type} (l : list V) : is_Some (entry l) ↔ l ≠ [].
Proof.
  destruct l; simpl; split; try done.
  all: first [by intros [? ?] | by eauto].
Qed.

Lemma entry_nonempty {V : Type} (l k : list V) : entry l = Some k → k ≠ [].
Proof. destruct l; simpl; [done|]. by intros [= <-]. Qed.

Lemma roles_of_snoc rows r :
  roles_of (rows ++ [r])
  = let roles :=
      if decide (UserOrgRole.OrgRole r ≠ "")
      then <[UserOrgRole.UserID r := [UserOrgRole.OrgRole r]]> (roles_of rows)
      else roles_of rows in
    if UserOrgRole.IsAdmin r
    then map_append (UserOrgRole.UserID r) accesscontrol.RoleGrafanaAdmin roles
    else roles.
Proof. unfold roles_of. by rewrite foldl_snoc. Qed.

(** The loop over [dbRoles] never stores an empty slice. *)
Lemma roles_of_nonempty rows userID l :
  roles_of rows !! userID = Some l → l ≠ [].
Proof.
  revert l. induction rows as [|r rows IH] using rev_ind; intros l; [done|].
  rewrite roles_of_snoc. simpl.
  destruct (UserOrgRole.IsAdmin r).
  - rewrite lookup_map_append.
    destruct (decide (UserOrgRole.UserID r = userID)) as [_|Hne].
    + intros [= <-]. by intros [? ?]%app_eq_nil.
    + destruct (decide (UserOrgRole.OrgRole r ≠ "")); [|apply IH].
      rewrite lookup_insert_ne by done. apply IH.
  - destruct (decide (UserOrgRole.OrgRole r ≠ "")); [|apply IH].
    destruct (decide (UserOrgRole.UserID r = userID)) as [<-|Hne].
    + rewrite lookup_insert_eq. by intros [= <-].
    + rewrite lookup_insert_ne by done. apply IH.
Qed.

(** A user is a key of [roles] exactly when one of the rows of the user
    carries an org role or the admin flag. *)
Lemma roles_of_is_Some rows userID :
  is_Some (roles_of rows !! userID)
  ↔ ∃ r, r ∈ rows ∧ UserOrgRole.UserID r = userID
         ∧ (UserOrgRole.OrgRole r ≠ "" ∨ UserOrgRole.IsAdmin r).
Proof.
  induction rows as [|r rows IH] using rev_ind.
  - split; [by intros [? ?]|]. by intros (? & ?%not_elem_of_nil & _).
  - assert ((∃ r0, r0 ∈ rows ++ [r] ∧ UserOrgRole.UserID r0 = userID
                   ∧ (UserOrgRole.OrgRole r0 ≠ "" ∨ UserOrgRole.IsAdmin r0))
            ↔ is_Some (roles_of rows !! userID)
              ∨ (UserOrgRole.UserID r = userID
                 ∧ (UserOrgRole.OrgRole r ≠ "" ∨ UserOrgRole.IsAdmin r)))
      as ->.
    { rewrite IH. split.
      - intros (r0 & [Hin| ->%list_elem_of_singleton]%elem_of_app & Hr0);
          [left; eauto | by right].
      - intros [(r0 & Hin & Hr0) | Hr].
        + exists r0. split; [apply elem_of_app; by left | done].
        + exists r. split; [apply elem_of_app; right; by left | done]. }
    rewrite roles_of_snoc. simpl.
    destruct (UserOrgRole.IsAdmin r) eqn:Hadmin.
    + rewrite lookup_map_append.
      destruct (decide (UserOrgRole.UserID r = userID)) as [Heq|Hne].
      * split; [intros _; right; split; [done|by right] | by eauto].
      * destruct (decide (UserOrgRole.OrgRole r ≠ ""));
          rewrite ?lookup_insert_ne by done; tauto.
    + destruct (decide (UserOrgRole.OrgRole r ≠ "")) as [Hrole|Hrole].
      * destruct (decide (UserOrgRole.UserID r = userID)) as [Heq|Hne].
        -- rewrite Heq, lookup_insert_eq.
           split; [intros _; right; by split; [|left] | by eauto].
        -- rewrite lookup_insert_ne by done. tauto.
      * split; [by left|]. intros [?|[_ [?|?]]]; done.
Qed.

(** Every left row has at least one row in a left join. *)
Lemma left_join_total {A B : Type} (on : A * B → Prop)
    `{∀ x, Decision (on x)} (l : list A) (r : list B) (a : A) :
  a ∈ l → ∃ ob, (a, ob) ∈ Sql.left_join on l r.
Proof.
  intros Ha. unfold Sql.left_join.
  destruct (filter (λ b, on (a, b)) r) as [|b bs] eqn:E.
  - exists None. apply list_elem_of_bind. exists a. rewrite E.
    split; [by left|done].
  - exists (Some b). apply list_elem_of_bind. exists a. rewrite E.
    split; [by left|done].
Qed.

(** A left join has left rows only. *)
Lemma left_join_left {A B : Type} (on : A * B → Prop)
    `{∀ x, Decision (on x)} (l : list A) (r : list B) (x : A * option B) :
  x ∈ Sql.left_join on l r → x.1 ∈ l.
Proof.
  unfold Sql.left_join. intros (a & Hx & Ha)%list_elem_of_bind.
  destruct (filter (λ b, on (a, b)) r) as [|b bs].
  - by apply list_elem_of_singleton in Hx as ->.
  - by apply list_elem_of_fmap in Hx as (b' & -> & _).
Qed.

(** [UNION] keeps exactly the rows of the four grant paths. *)
Lemma elem_of_up_rows db r : r ∈ up_rows db ↔ r ∈ grant_paths db.
Proof.
  unfold up_rows, grant_paths, Sql.union.
  rewrite !elem_of_remove_dups, !elem_of_app, !elem_of_remove_dups,
    !elem_of_app, !elem_of_remove_dups, !elem_of_app.
  tauto.
Qed.

(** [UNION] leaves no two equal rows. *)
Lemma NoDup_up_rows db : NoDup (up_rows db).
Proof. apply NoDup_remove_dups. Qed.

(** The outcome of [GetUsersPermissions], query by query. *)
Lemma GetUsersPermissions_run faults orgID actionPrefix db :
  GetUsersPermissions faults orgID actionPrefix db
  = (db,
     match fault_find_permissions faults with
     | Some e => (∅, ∅, Some e)
     | None =>
         match fault_find_roles faults with
         | Some e =>
             (mapped_of (find_permissions orgID actionPrefix db), ∅, Some e)
         | None =>
             (mapped_of (find_permissions orgID actionPrefix db),
              roles_of (find_roles orgID db), None)
         end
     end).
Proof.
  unfold GetUsersPermissions, WithDbSession, GetUsersPermissions_session, Find.
  by destruct faults as [[e1|] [e2|]].
Qed.

(** The admin rows of "Find roles" are the admin users. *)
Lemma find_roles_admin orgID db userID :
  (∃ r, r ∈ find_roles orgID db ∧ UserOrgRole.UserID r = userID
        ∧ UserOrgRole.IsAdmin r)
  ↔ ∃ u, u ∈ user db ∧ Tables.user_id u = userID ∧ user_is_admin u.
Proof.
  unfold find_roles. split.
  - intros (r & (x & -> & Hx)%list_elem_of_fmap & Hid & Hadm). simpl in *.
    apply list_elem_of_filter in Hx as [_ Hx].
    apply left_join_left in Hx. by exists x.1.
  - intros (u & Hu & Hid & Hadm).
    destruct (left_join_total
                (λ x, Tables.user_id x.1 = org_user_user_id x.2)
                (user db) (org_user db) u Hu) as [ob Hob].
    eexists. split; [|split].
    + apply list_elem_of_fmap_2. apply list_elem_of_filter.
      split; [|exact Hob]. by left.
    + done.
    + done.
Qed.

(** C10. No entry of either map is an empty list.  When both queries
    succeed, a user id is a key of the permissions map exactly when some
    grant path gives that user a permission row in [OrgID] or the global
    scope whose action passes the action-prefix restriction of the query; and
    a user id is a key of the roles map exactly when a selected row of the
    user has a non-empty org role or the user has the admin flag. *)
Theorem GetUsersPermissions_entries faults orgID actionPrefix db :
  let out := (GetUsersPermissions faults orgID actionPrefix db).2 in
  (∀ userID l, out.1.1 !! userID = Some l → l ≠ [])
  ∧ (∀ userID l, out.1.2 !! userID = Some l → l ≠ [])
  ∧ (out.2 = None →
     ∀ userID,
       (is_Some (out.1.1 !! userID)
        ↔ ∃ r, r ∈ grant_paths db ∧ up.user_id r = userID
               ∧ (up.org_id r = accesscontrol.GlobalOrgID
                  ∨ up.org_id r = orgID)
               ∧ Sql.like (actionPrefix +:+ "%") (up.action r))
       ∧ (is_Some (out.1.2 !! userID)
          ↔ (∃ r, r ∈ find_roles orgID db ∧ UserOrgRole.UserID r = userID
                  ∧ UserOrgRole.OrgRole r ≠ "")
            ∨ (∃ u, u ∈ user db ∧ Tables.user_id u = userID
                    ∧ user_is_admin u))).
Proof.
  intros out. subst out. rewrite GetUsersPermissions_run. simpl.
  split; [|split].
  - intros userID l.
    destruct (fault_find_permissions faults); [done|].
    destruct (fault_find_roles faults); simpl;
      rewrite mapped_of_lookup; apply entry_nonempty.
  - intros userID l.
    destruct (fault_find_permissions faults); [done|].
    destruct (fault_find_roles faults); simpl; [done|].
    apply roles_of_nonempty.
  - destruct (fault_find_permissions faults); [done|].
    destruct (fault_find_roles faults); [done|]. simpl.
    intros _ userID. split.
    + rewrite mapped_of_lookup, entry_is_Some. unfold perms_of, find_permissions.
      split.
      * intros Hne.
        destruct (filter _ _) as [|x xs] eqn:E; [done|].
        assert (x ∈ x :: xs) as Hx by left. rewrite <- E in Hx.
        apply list_elem_of_filter in Hx as [Hid Hx].
        apply list_elem_of_fmap in Hx as (r & -> & Hr).
        apply list_elem_of_filter in Hr as [[Horg Hlike] Hr].
        exists r. by rewrite <- elem_of_up_rows.
      * intros (r & Hr & Hid & Horg & Hlike) Hnil.
        apply fmap_nil_inv in Hnil.
        eapply (proj1 (filter_nil_in _ _) Hnil).
        -- apply (list_elem_of_fmap_2
                    (λ r, {| UserRBACPermission.UserID := up.user_id r;
                             UserRBACPermission.Action := up.action r;
                             UserRBACPermission.Scope := up.scope r |})).
           apply list_elem_of_filter. rewrite elem_of_up_rows.
           split; [split|]; eassumption.
        -- done.
    + rewrite roles_of_is_Some, <- find_roles_admin. split.
      * intros (r & Hr & Hid & [Hrole|Hadm]); [left|right]; by exists r.
      * intros [(r & Hr & Hid & Hrole)|(r & Hr & Hid & Hadm)];
          exists r; tauto.
Qed.

Lemma filter_fmap {A B : Type} (f : A → B) (P : B → Prop)
    `{∀ x, Decision (P x)} (l : list A) :
  filter P (f <$> l) = f <$> filter (λ a, P (f a)) l.
Proof.
  induction l as [|a l IH]; [done|].
  rewrite fmap_cons, !filter_cons, IH. by destruct (decide (P (f a))).
Qed.

Lemma default_entry {V : Type} (l : list V) : default [] (entry l) = l.
Proof. by destruct l. Qed.

(** The occurrences of a permission in a user's entry are the rows of [up]
    that reach it. *)
Lemma occurrences_mapped orgID actionPrefix db userID p :
  occurrences p
    (default [] (mapped_of (find_permissions orgID actionPrefix db) !! userID))
  = length (filter (reaches orgID actionPrefix userID p) (up_rows db)).
Proof.
  rewrite mapped_of_lookup, default_entry.
  unfold occurrences, perms_of, find_permissions.
  rewrite filter_fmap, length_fmap, filter_fmap, filter_fmap, length_fmap.
  rewrite !list_filter_filter. f_equal.
  apply list_filter_iff. intros r. unfold reaches. simpl.
  destruct p as [a s]. simpl. split.
  - intros (([= <- <-] & <-) & Horg & Hlike). done.
  - intros (<- & <- & <- & Horg & Hlike). done.
Qed.

(** C3, as amended. The permissions query removes duplicate rows: in a
    user's entry a permission occurs once for each organization scope (the
    global scope, [OrgID]) in which some grant path reaches it, however many
    grant paths reach it there; so it occurs at most twice. *)
Theorem GetUsersPermissions_multiplicity orgID actionPrefix db userID p :
  let mapped :=
    (GetUsersPermissions no_users_faults orgID actionPrefix db).2.1.1 in
  occurrences p (default [] (mapped !! userID))
  = length (remove_dups
              (up.org_id <$> reaching_paths orgID actionPrefix userID p db))
  ∧ (occurrences p (default [] (mapped !! userID)) ≤ 2)%nat.
Proof.
  intros mapped. subst mapped. rewrite GetUsersPermissions_run. simpl.
  rewrite occurrences_mapped.
  assert (NoDup (up.org_id
                 <$> filter (reaches orgID actionPrefix userID p) (up_rows db)))
    as Hnd.
  { apply NoDup_fmap_2_strong; [|apply NoDup_filter, NoDup_up_rows].
    intros [u1 o1 a1 s1] [u2 o2 a2 s2].
    intros [(H1 & H2 & H3 & _) _]%list_elem_of_filter.
    intros [(H4 & H5 & H6 & _) _]%list_elem_of_filter.
    simpl in *. intros ->. congruence. }
  rewrite <- (length_fmap up.org_id). split.
  - apply Permutation_length, NoDup_Permutation;
      [done | apply NoDup_remove_dups |].
    intros o. rewrite elem_of_remove_dups, !list_elem_of_fmap.
    unfold reaching_paths.
    split; intros (r & -> & Hr); exists r; split; try done;
      apply list_elem_of_filter in Hr as [Hreach Hr];
      apply list_elem_of_filter; split; try done;
      by apply elem_of_up_rows.
  - change 2%nat with (length [accesscontrol.GlobalOrgID; orgID]).
    apply submseteq_length, NoDup_submseteq; [done|].
    intros o (r & -> & Hr)%list_elem_of_fmap.
    apply list_elem_of_filter in Hr as [(_ & _ & _ & [->| ->] & _) _].
    + by left.
    + right. by left.
Qed.

(** [%] alone matches every string. *)
Lemma like_any s : Sql.like "%" s = true.
Proof. induction s as [|c s IH]; [done|]. simpl in *. exact IH. Qed.

(** Without wildcards in the prefix, [LIKE prefix%] is the prefix test. *)
Lemma like_plain_prefix pat s :
  plain pat = true → Sql.like (pat +:+ "%") s = HasPrefix s pat.
Proof.
  unfold HasPrefix. revert s.
  induction pat as [|c pat IH]; intros s Hplain.
  - change ("" +:+ "%") with "%". rewrite like_any. by destruct s.
  - simpl in Hplain.
    apply andb_prop in Hplain as [[Hc1 Hc2]%andb_prop Hplain].
    apply negb_true_iff in Hc1, Hc2.
    change (String c pat +:+ "%") with (String c (pat +:+ "%")).
    cbn [Sql.like String.prefix]. rewrite Hc1.
    destruct s as [|d s]; [done|]. rewrite Hc2. simpl.
    rewrite IH by done.
    destruct (ascii_dec c d) as [->|Hne].
    + by rewrite Ascii.eqb_refl.
    + apply Ascii.eqb_neq in Hne. by rewrite Hne.
Qed.

(** For a prefix without wildcards "Find permissions" keeps exactly the
    rows whose action starts with the prefix. *)
Lemma find_permissions_plain orgID actionPrefix db :
  plain actionPrefix = true →
  find_permissions orgID actionPrefix db
  = (λ r, {| UserRBACPermission.UserID := up.user_id r;
             UserRBACPermission.Action := up.action r;
             UserRBACPermission.Scope := up.scope r |})
    <$> filter (λ r, (up.org_id r = accesscontrol.GlobalOrgID
                      ∨ up.org_id r = orgID)
                     ∧ HasPrefix (up.action r) actionPrefix)
          (up_rows db).
Proof.
  intros Hplain. unfold find_permissions. f_equal.
  apply list_filter_iff. intros r. by rewrite like_plain_prefix.
Qed.

(** C6 at the failing input: with the prefix [teams_] the permissions map
    holds [teams:read], whose action does not start with [teams_]. *)
Theorem GetUsersPermissions_wildcard_prefix :
  (GetUsersPermissions no_users_faults 1 "teams_" db_two_paths).2.1.1 !! 5
  = Some [ {| Action := "teams:read"; Scope := "teams:*" |} ]
  ∧ HasPrefix "teams:read" "teams_" = false.
Proof. split; vm_compute; reflexivity. Qed.

(** C2 at the failing input: user 1, a global administrator, holds no role
    in organization 1, yet the roles map for organization 1 gives the user
    the [Editor] role held in organization 2. *)
Theorem GetUsersPermissions_role_of_other_org :
  (GetUsersPermissions no_users_faults 1 "" db_admin_elsewhere).2.1.2 !! 1
  = Some ["Editor"; "Grafana Admin"]
  ∧ basic_roles 1 1 db_admin_elsewhere = ["Grafana Admin"].
Proof. split; vm_compute; reflexivity. Qed.

(** C3 as stated fails: in [db_two_paths] two grant paths of organization 1
    give user 5 the permission [teams:read] on [teams:*], and the user's
    entry holds it once. *)
Lemma two_paths_one_occurrence :
  length (reaching_paths 1 "teams" 5
            {| Action := "teams:read"; Scope := "teams:*" |} db_two_paths)
  = 2%nat
  ∧ occurrences {| Action := "teams:read"; Scope := "teams:*" |}
      (default []
         ((GetUsersPermissions no_users_faults 1 "teams" db_two_paths).2.1.1
          !! 5))
    = 1%nat.
Proof. split; vm_compute; reflexivity. Qed.

(** ** Concrete runs *)

(** Decide a closed proposition by evaluation. *)
Ltac by_evaluation := apply (bool_decide_unpack _); vm_compute; exact I.

(** C1 at a concrete input: the last statement, the deletion of the managed
    role rows, fails after four statements have run. *)
Lemma DeleteUserPermissions_atomic_witness :
  DeleteUserPermissions sample_role_name
    {| fault_delete_user_role := None; fault_delete_user_scope := None;
       fault_select_role := None; fault_delete_permission := None;
       fault_delete_role := Some "database is locked" |}
    0 7 db_user7
  = (db_user7, Some "database is locked").
Proof.
  pose proof (DeleteUserPermissions_atomic sample_role_name
                {| fault_delete_user_role := None;
                   fault_delete_user_scope := None;
                   fault_select_role := None;
                   fault_delete_permission := None;
                   fault_delete_role := Some "database is locked" |}
                0 7 db_user7 "database is locked")
    as (_ & _ & _ & _ & Hlast & _).
  apply Hlast; try reflexivity.
  vm_compute. discriminate.
Defined.

(** C4 at a concrete input: user 5 of [db_two_paths] has no managed role,
    and a second call for user 7 of [db_user7] follows a first one. *)
Lemma DeleteUserPermissions_idempotent_witness :
  DeleteUserPermissions sample_role_name no_delete_faults 1 5 db_two_paths
  = (delete_user_role 1 5 db_two_paths, None)
  ∧ DeleteUserPermissions sample_role_name no_delete_faults 1 7
      (DeleteUserPermissions sample_role_name no_delete_faults 1 7 db_user7).1
    = ((DeleteUserPermissions sample_role_name no_delete_faults 1 7
          db_user7).1, None).
Proof.
  split.
  - apply (proj1 (DeleteUserPermissions_idempotent sample_role_name
                    no_delete_faults 1 5 db_two_paths
                    eq_refl (λ _, eq_refl) eq_refl)).
    reflexivity.
  - apply (proj2 (DeleteUserPermissions_idempotent sample_role_name
                    no_delete_faults 1 7 _
                    eq_refl (λ _, eq_refl) eq_refl)
             no_delete_faults db_user7).
    reflexivity.
Defined.

(** C5 as stated fails: in [db_user7] the managed role of user 7 in
    organization 1 owns a permission row whose scope is [users:id:7]; the
    call for organization 1, which is not the global scope, removes it. *)
Lemma user_scope_row_removed_in_org :
  {| permission_role_id := 10; permission_action := "users:write";
     permission_scope := "users:id:7" |} ∈ permission db_user7
  ∧ accesscontrol.Scope "users" "id" (FormatInt 7) = "users:id:7"
  ∧ ({| permission_role_id := 10; permission_action := "users:write";
        permission_scope := "users:id:7" |}
     ∉ permission
         (DeleteUserPermissions sample_role_name no_delete_faults 1 7
            db_user7).1)
  ∧ (DeleteUserPermissions sample_role_name no_delete_faults 1 7 db_user7).2
    = None
  ∧ 1 ≠ accesscontrol.GlobalOrgID.
Proof.
  split; [by_evaluation|]. split; [reflexivity|].
  split; [by_evaluation|]. split; [reflexivity|discriminate].
Qed.

(** C5, as amended, at a concrete input. *)
Lemma DeleteUserPermissions_removes_witness :
  user_role (DeleteUserPermissions sample_role_name no_delete_faults 1 7
               db_user7).1
  = filter (λ ur, ¬ (user_role_user_id ur = 7 ∧ user_role_org_id ur = 1))
      (user_role db_user7).
Proof.
  apply (DeleteUserPermissions_removes sample_role_name no_delete_faults 1 7
           db_user7 _ eq_refl).
  discriminate.
Defined.

(** C9 at a concrete input. *)
Lemma DeleteUserPermissions_frame_witness :
  filter (λ r, role_org_id r ≠ 1)
    (role (DeleteUserPermissions sample_role_name no_delete_faults 1 7
             db_user7).1)
  = filter (λ r, role_org_id r ≠ 1) (role db_user7).
Proof.
  refine (proj1 (proj2 (DeleteUserPermissions_frame sample_role_name
                          no_delete_faults 1 7 db_user7 _ _ _ eq_refl))).
  - discriminate.
  - by_evaluation.
Defined.

(** C8 at a concrete input: with the allow-list [users:write] only that
    action is returned, and with an empty allow-list both permissions of the
    managed role of user 7 are. *)
Lemma GetUserPermissions_actions_witness :
  Forall (λ p, Action p ∈ ["users:write"])
    (GetUserPermissions sample_filter None
       {| GetUserPermissionsQuery.OrgID := 1;
          GetUserPermissionsQuery.UserID := 7;
          GetUserPermissionsQuery.TeamIDs := [];
          GetUserPermissionsQuery.Roles := [];
          GetUserPermissionsQuery.Actions := ["users:write"] |} db_user7).1.2
  ∧ (GetUserPermissions sample_filter None
       {| GetUserPermissionsQuery.OrgID := 1;
          GetUserPermissionsQuery.UserID := 7;
          GetUserPermissionsQuery.TeamIDs := [];
          GetUserPermissionsQuery.Roles := [];
          GetUserPermissionsQuery.Actions := [] |} db_user7).1.2
    = [ {| Action := "dashboards:read"; Scope := "dashboards:uid:a" |};
        {| Action := "users:write"; Scope := "users:id:7" |} ].
Proof.
  split.
  - apply Forall_forall. intros p Hp.
    apply (proj1 (GetUserPermissions_actions sample_filter None
                    {| GetUserPermissionsQuery.OrgID := 1;
                       GetUserPermissionsQuery.UserID := 7;
                       GetUserPermissionsQuery.TeamIDs := [];
                       GetUserPermissionsQuery.Roles := [];
                       GetUserPermissionsQuery.Actions := ["users:write"] |}
                    db_user7));
      [discriminate | exact Hp].
  - rewrite (proj2 (GetUserPermissions_actions sample_filter None
                      {| GetUserPermissionsQuery.OrgID := 1;
                         GetUserPermissionsQuery.UserID := 7;
                         GetUserPermissionsQuery.TeamIDs := [];
                         GetUserPermissionsQuery.Roles := [];
                         GetUserPermissionsQuery.Actions := [] |}
                      db_user7) eq_refl eq_refl).
    + reflexivity.
    + simpl. intros [Hid _]. discriminate.
Defined.

(** C10 at a concrete input: user 5 of [db_two_paths] is a key of both maps
    for organization 1 and the prefix [teams]. *)
Lemma GetUsersPermissions_entries_witness :
  is_Some
    ((GetUsersPermissions no_users_faults 1 "teams" db_two_paths).2.1.1 !! 5)
  ∧ is_Some
      ((GetUsersPermissions no_users_faults 1 "teams" db_two_paths).2.1.2
       !! 5).
Proof.
  pose proof (proj2 (proj2 (GetUsersPermissions_entries no_users_faults 1
                              "teams" db_two_paths)) eq_refl 5)
    as [Hperms Hroles].
  split.
  - apply Hperms.
    exists {| up.user_id := 5; up.org_id := 1; up.action := "teams:read";
              up.scope := "teams:*" |}.
    split; [by_evaluation|]. split; [reflexivity|].
    split; [by right | by_evaluation].
  - apply Hroles. left.
    exists {| UserOrgRole.UserID := 5; UserOrgRole.OrgRole := "Viewer";
              UserOrgRole.IsAdmin := false |}.
    split; [by_evaluation|]. split; [reflexivity|discriminate].
Defined.

(** ** Further properties of [GetUserPermissions] *)

Section GetUserPermissions_more.

Variable UserRolesFilter :
  Z → Z → list Z → list string → DB →
  list (PermissionRow * RoleRow) → list (PermissionRow * RoleRow).





End GetUserPermissions_more.

(** ** Further properties of [GetUsersPermissions] *)

Lemma elem_of_inner_join {A B : Type} (on : A * B → Prop)
    `{∀ x, Decision (on x)} (l : list A) (r : list B) (x : A * B) :
  x ∈ Sql.inner_join on l r ↔ x.1 ∈ l ∧ x.2 ∈ r ∧ on x.
Proof.
  unfold Sql.inner_join. rewrite list_elem_of_filter, list_elem_of_bind.
  split.
  - intros (Hon & a & (b & -> & Hb)%list_elem_of_fmap & Ha). done.
  - intros (Ha & Hb & Hon). split; [done|]. exists x.1. split; [|done].
    apply list_elem_of_fmap. exists x.2. split; [by destruct x|done].
Qed.

Lemma left_join_Some {A B : Type} (on : A * B → Prop)
    `{∀ x, Decision (on x)} (l : list A) (r : list B) (a : A) (b : B) :
  (a, Some b) ∈ Sql.left_join on l r → a ∈ l ∧ b ∈ r ∧ on (a, b).
Proof.
  unfold Sql.left_join. intros (a' & Hx & Ha)%list_elem_of_bind.
  destruct (filter (λ b0, on (a', b0)) r) as [|b0 bs] eqn:E.
  - by apply list_elem_of_singleton in Hx.
  - rewrite <- E in Hx.
    apply list_elem_of_fmap in Hx as (b' & [= -> ->] & Hb').
    by apply list_elem_of_filter in Hb' as [Hon Hb'].
Qed.

(** The rows of the four grant paths, in terms of the tables. *)
Lemma elem_of_up_user_role db r :
  r ∈ up_user_role db
  ↔ ∃ p ur, p ∈ permission db ∧ ur ∈ user_role db
            ∧ user_role_role_id ur = permission_role_id p
            ∧ r = {| up.user_id := user_role_user_id ur;
                     up.org_id := user_role_org_id ur;
                     up.action := permission_action p;
                     up.scope := permission_scope p |}.
Proof.
  unfold up_user_role. rewrite list_elem_of_fmap. split.
  - intros ([p ur] & -> & (Hp & Hur & Hon)%elem_of_inner_join).
    by exists p, ur.
  - intros (p & ur & Hp & Hur & Hon & ->). exists (p, ur).
    split; [done|]. by apply elem_of_inner_join.
Qed.

Lemma elem_of_up_team_role db r :
  r ∈ up_team_role db
  ↔ ∃ p tr tm, p ∈ permission db ∧ tr ∈ team_role db ∧ tm ∈ team_member db
               ∧ team_role_role_id tr = permission_role_id p
               ∧ team_member_team_id tm = team_role_team_id tr
               ∧ r = {| up.user_id := team_member_user_id tm;
                        up.org_id := team_role_org_id tr;
                        up.action := permission_action p;
                        up.scope := permission_scope p |}.
Proof.
  unfold up_team_role. rewrite list_elem_of_fmap. split.
  - intros ([[p tr] tm] & -> & (Hptr & Htm & Hon)%elem_of_inner_join).
    apply elem_of_inner_join in Hptr as (Hp & Htr & Hon').
    by exists p, tr, tm.
  - intros (p & tr & tm & Hp & Htr & Htm & Hon & Hon' & ->).
    exists (p, tr, tm). split; [done|].
    apply elem_of_inner_join. split; [|done].
    by apply elem_of_inner_join.
Qed.

Lemma elem_of_up_builtin_role db r :
  r ∈ up_builtin_role db
  ↔ ∃ p br ou, p ∈ permission db ∧ br ∈ builtin_role db ∧ ou ∈ org_user db
               ∧ builtin_role_role_id br = permission_role_id p
               ∧ org_user_role ou = builtin_role_role br
               ∧ r = {| up.user_id := org_user_user_id ou;
                        up.org_id := builtin_role_org_id br;
                        up.action := permission_action p;
                        up.scope := permission_scope p |}.
Proof.
  unfold up_builtin_role. rewrite list_elem_of_fmap. split.
  - intros ([[p br] ou] & -> & (Hpbr & Hou & Hon)%elem_of_inner_join).
    apply elem_of_inner_join in Hpbr as (Hp & Hbr & Hon').
    by exists p, br, ou.
  - intros (p & br & ou & Hp & Hbr & Hou & Hon & Hon' & ->).
    exists (p, br, ou). split; [done|].
    apply elem_of_inner_join. split; [|done].
    by apply elem_of_inner_join.
Qed.

Lemma elem_of_up_grafana_admin db r :
  r ∈ up_grafana_admin db
  ↔ ∃ p br u, p ∈ permission db ∧ br ∈ builtin_role db ∧ u ∈ user db
              ∧ builtin_role_role_id br = permission_role_id p
              ∧ builtin_role_role br = accesscontrol.RoleGrafanaAdmin
              ∧ user_is_admin u
              ∧ r = {| up.user_id := Tables.user_id u;
                       up.org_id := builtin_role_org_id br;
                       up.action := permission_action p;
                       up.scope := permission_scope p |}.
Proof.
  unfold up_grafana_admin. rewrite list_elem_of_fmap. split.
  - intros ([[p br] k] & -> & Hx). simpl.
    apply list_elem_of_filter in Hx as [Hrole Hx].
    apply elem_of_inner_join in Hx as (Hpbr & Hk & _).
    apply elem_of_inner_join in Hpbr as (Hp & Hbr & Hon).
    apply list_elem_of_fmap in Hk as (u & Hid & Hu).
    apply list_elem_of_filter in Hu as [Hadm Hu].
    simpl in *. subst k. by exists p, br, u.
  - intros (p & br & u & Hp & Hbr & Hu & Hon & Hrole & Hadm & ->).
    exists (p, br, Tables.user_id u). split; [done|].
    apply list_elem_of_filter. split; [done|].
    apply elem_of_inner_join. split; [|split; [|done]].
    + by apply elem_of_inner_join.
    + apply (list_elem_of_fmap_2 Tables.user_id).
      by apply list_elem_of_filter.
Qed.

(** A user's permissions, read off the rows of [up]. *)
Lemma perms_of_find_permissions orgID actionPrefix db userID :
  perms_of userID (find_permissions orgID actionPrefix db)
  = permission_of
    <$> filter (λ r, up.user_id r = userID
                     ∧ in_scope orgID (up.org_id r)
                     ∧ Sql.like (actionPrefix +:+ "%") (up.action r))
          (up_rows db).
Proof.
  unfold perms_of, find_permissions.
  rewrite filter_fmap, <- list_fmap_compose, list_filter_filter.
  done.
Qed.

Lemma mapped_entry faults orgID actionPrefix db userID :
  fault_find_permissions faults = None →
  default []
    ((GetUsersPermissions faults orgID actionPrefix db).2.1.1 !! userID)
  = perms_of userID (find_permissions orgID actionPrefix db).
Proof.
  intros Hok. rewrite GetUsersPermissions_run, Hok.
  destruct (fault_find_roles faults); simpl;
    by rewrite mapped_of_lookup, default_entry.
Qed.


(** X5. When the permissions query succeeds, a user's entry of the
    permissions map is the list of the permissions of that user's rows, in
    the order the query returned them and with their multiplicities; a user
    without a row has no entry. *)
Theorem GetUsersPermissions_grouping faults orgID actionPrefix db userID :
  fault_find_permissions faults = None →
  (GetUsersPermissions faults orgID actionPrefix db).2.1.1 !! userID
  = entry ((λ r, {| Action := UserRBACPermission.Action r;
                    Scope := UserRBACPermission.Scope r |})
           <$> filter (λ r, UserRBACPermission.UserID r = userID)
                 (find_permissions orgID actionPrefix db)).
Proof.
  intros Hok. rewrite GetUsersPermissions_run, Hok.
  destruct (fault_find_roles faults); simpl; apply mapped_of_lookup.
Qed.

(** X6. When the permissions query succeeds, a permission is in a user's
    entry exactly when a permission row carries it, its action passes the
    [LIKE] test, and the row's role is tied to the user in [OrgID] or the
    global scope in one of four ways: a user-role row of the user; a
    team-role row of a team the user is a member of; a builtin-role row
    whose role name is the org role of the user in any organization; a
    builtin-role row for [Grafana Admin] when the user has the admin flag. *)
Theorem GetUsersPermissions_membership faults orgID actionPrefix db userID p :
  fault_find_permissions faults = None →
  (p ∈ default []
         ((GetUsersPermissions faults orgID actionPrefix db).2.1.1 !! userID)
   ↔ ∃ pr, pr ∈ permission db
           ∧ p = {| Action := permission_action pr;
                    Scope := permission_scope pr |}
           ∧ Sql.like (actionPrefix +:+ "%") (permission_action pr)
           ∧ ((∃ ur, ur ∈ user_role db
                     ∧ user_role_role_id ur = permission_role_id pr
                     ∧ user_role_user_id ur = userID
                     ∧ in_scope orgID (user_role_org_id ur))
              ∨ (∃ tr tm, tr ∈ team_role db ∧ tm ∈ team_member db
                          ∧ team_role_role_id tr = permission_role_id pr
                          ∧ team_member_team_id tm = team_role_team_id tr
                          ∧ team_member_user_id tm = userID
                          ∧ in_scope orgID (team_role_org_id tr))
              ∨ (∃ br ou, br ∈ builtin_role db ∧ ou ∈ org_user db
                          ∧ builtin_role_role_id br = permission_role_id pr
                          ∧ org_user_role ou = builtin_role_role br
                          ∧ org_user_user_id ou = userID
                          ∧ in_scope orgID (builtin_role_org_id br))
              ∨ (∃ br u, br ∈ builtin_role db ∧ u ∈ user db
                         ∧ builtin_role_role_id br = permission_role_id pr
                         ∧ builtin_role_role br
                           = accesscontrol.RoleGrafanaAdmin
                         ∧ user_is_admin u
                         ∧ Tables.user_id u = userID
                         ∧ in_scope orgID (builtin_role_org_id br)))).
Proof.
  intros Hok. rewrite mapped_entry, perms_of_find_permissions by done.
  rewrite list_elem_of_fmap. split.
  - intros (r & -> & Hr). apply list_elem_of_filter in Hr as [(Hu & Ho & Hl) Hr].
    apply elem_of_up_rows in Hr. unfold grant_paths in Hr.
    rewrite !elem_of_app in Hr.
    destruct Hr as [Hr|[Hr|[Hr|Hr]]].
    + apply elem_of_up_user_role in Hr as (pr & ur & Hpr & Hur & Hon & ->).
      exists pr. simpl in *. split; [done|]. split; [done|]. split; [done|].
      left. by exists ur.
    + apply elem_of_up_team_role in Hr
        as (pr & tr & tm & Hpr & Htr & Htm & Hon & Hon' & ->).
      exists pr. simpl in *. split; [done|]. split; [done|]. split; [done|].
      right. left. by exists tr, tm.
    + apply elem_of_up_builtin_role in Hr
        as (pr & br & ou & Hpr & Hbr & Hou & Hon & Hon' & ->).
      exists pr. simpl in *. split; [done|]. split; [done|]. split; [done|].
      right. right. left. by exists br, ou.
    + apply elem_of_up_grafana_admin in Hr
        as (pr & br & u & Hpr & Hbr & Hu' & Hon & Hrole & Hadm & ->).
      exists pr. simpl in *. split; [done|]. split; [done|]. split; [done|].
      right. right. right. by exists br, u.
  - intros (pr & Hpr & -> & Hl & Hpath).
    assert (∃ r, r ∈ grant_paths db ∧ up.user_id r = userID
                 ∧ in_scope orgID (up.org_id r)
                 ∧ up.action r = permission_action pr
                 ∧ up.scope r = permission_scope pr)
      as (r & Hr & Hu & Ho & Ha & Hs).
    { unfold grant_paths.
      destruct Hpath as [(ur & Hur & Hon & Hu & Ho)
                        |[(tr & tm & Htr & Htm & Hon & Hon' & Hu & Ho)
                         |[(br & ou & Hbr & Hou & Hon & Hon' & Hu & Ho)
                          |(br & u & Hbr & Hu' & Hon & Hrole & Hadm & Hu
                            & Ho)]]].
      - exists {| up.user_id := user_role_user_id ur;
                  up.org_id := user_role_org_id ur;
                  up.action := permission_action pr;
                  up.scope := permission_scope pr |}.
        split; [|done]. rewrite !elem_of_app. left.
        apply elem_of_up_user_role. by exists pr, ur.
      - exists {| up.user_id := team_member_user_id tm;
                  up.org_id := team_role_org_id tr;
                  up.action := permission_action pr;
                  up.scope := permission_scope pr |}.
        split; [|done]. rewrite !elem_of_app. right. left.
        apply elem_of_up_team_role. by exists pr, tr, tm.
      - exists {| up.user_id := org_user_user_id ou;
                  up.org_id := builtin_role_org_id br;
                  up.action := permission_action pr;
                  up.scope := permission_scope pr |}.
        split; [|done]. rewrite !elem_of_app. right. right. left.
        apply elem_of_up_builtin_role. by exists pr, br, ou.
      - exists {| up.user_id := Tables.user_id u;
                  up.org_id := builtin_role_org_id br;
                  up.action := permission_action pr;
                  up.scope := permission_scope pr |}.
        split; [|done]. rewrite !elem_of_app. right. right. right.
        apply elem_of_up_grafana_admin. by exists pr, br, u. }
    exists r. split; [unfold permission_of; by rewrite Ha, Hs|].
    apply list_elem_of_filter. rewrite Ha.
    split; [done|]. by apply elem_of_up_rows.
Qed.



(** The rows of "Find roles", in terms of the tables. *)
Lemma elem_of_find_roles orgID db r :
  r ∈ find_roles orgID db →
  ∃ u, u ∈ user db ∧ UserOrgRole.UserID r = Tables.user_id u
       ∧ UserOrgRole.IsAdmin r = user_is_admin u
       ∧ (user_is_admin u
          ∨ ∃ ou, ou ∈ org_user db
                  ∧ org_user_user_id ou = Tables.user_id u
                  ∧ org_user_org_id ou = orgID
                  ∧ UserOrgRole.OrgRole r = org_user_role ou).
Proof.
  unfold find_roles. intros ([u ob] & -> & Hx)%list_elem_of_fmap.
  apply list_elem_of_filter in Hx as [Hcond Hx]. simpl in *.
  exists u. split; [by apply left_join_left in Hx|].
  split; [done|]. split; [done|].
  destruct Hcond as [Hadm|Horg]; [by left|]. right.
  destruct ob as [ou|]; [|done]. simpl in Horg.
  apply left_join_Some in Hx as (_ & Hou & Hon). simpl in Hon.
  exists ou. split; [done|]. split; [done|]. split; [congruence|done].
Qed.

(** Over rows without the admin flag the loop keeps one role per user. *)
Lemma roles_of_non_admin rows userID l :
  (∀ r, r ∈ rows → UserOrgRole.UserID r = userID →
        UserOrgRole.IsAdmin r = false) →
  roles_of rows !! userID = Some l →
  ∃ r, r ∈ rows ∧ UserOrgRole.UserID r = userID
       ∧ UserOrgRole.OrgRole r ≠ "" ∧ l = [UserOrgRole.OrgRole r].
Proof.
  induction rows as [|r rows IH] using rev_ind; intros Hrows; [done|].
  assert (roles_of rows !! userID = Some l →
          ∃ r0, r0 ∈ rows ++ [r] ∧ UserOrgRole.UserID r0 = userID
                ∧ UserOrgRole.OrgRole r0 ≠ "" ∧ l = [UserOrgRole.OrgRole r0])
    as Hold.
  { intros Hl. destruct IH as (r0 & Hr0 & Hrest); [|done|].
    - intros r0 Hr0. apply Hrows, elem_of_app. by left.
    - exists r0. split; [apply elem_of_app; by left|done]. }
  assert (r ∈ rows ++ [r]) as Hlast by (apply elem_of_app; right; left).
  rewrite roles_of_snoc. simpl.
  destruct (decide (UserOrgRole.UserID r = userID)) as [Hid|Hid].
  - rewrite (Hrows r Hlast Hid).
    destruct (decide (UserOrgRole.OrgRole r ≠ "")) as [Hrole|]; [|done].
    rewrite Hid, lookup_insert_eq. intros [= <-]. by exists r.
  - destruct (UserOrgRole.IsAdmin r);
      destruct (decide (UserOrgRole.OrgRole r ≠ ""));
      rewrite ?lookup_map_append, ?decide_False, ?lookup_insert_ne by done;
      done.
Qed.

(** Over rows that all carry the admin flag a user's entry ends with
    [Grafana Admin]. *)
Lemma roles_of_admin rows userID :
  (∀ r, r ∈ rows → UserOrgRole.UserID r = userID →
        UserOrgRole.IsAdmin r = true) →
  (∃ r, r ∈ rows ∧ UserOrgRole.UserID r = userID) →
  ∃ l, roles_of rows !! userID = Some (l ++ [accesscontrol.RoleGrafanaAdmin]).
Proof.
  induction rows as [|r rows IH] using rev_ind; intros Hrows Hex.
  { by destruct Hex as (? & ?%not_elem_of_nil & _). }
  assert (r ∈ rows ++ [r]) as Hlast by (apply elem_of_app; right; left).
  rewrite roles_of_snoc. simpl.
  destruct (decide (UserOrgRole.UserID r = userID)) as [Hid|Hid].
  - rewrite (Hrows r Hlast Hid), lookup_map_append, decide_True by done.
    by eexists.
  - destruct IH as [l Hl].
    + intros r0 Hr0. apply Hrows, elem_of_app. by left.
    + destruct Hex as (r0 & [Hr0| ->%list_elem_of_singleton]%elem_of_app
                       & Hid0); [by exists r0 | done].
    + exists l.
      destruct (UserOrgRole.IsAdmin r);
        destruct (decide (UserOrgRole.OrgRole r ≠ ""));
        rewrite ?lookup_map_append, ?decide_False, ?lookup_insert_ne by done;
        done.
Qed.

(** X9. For a user without the admin flag, an entry of the roles map is a
    single role: the non-empty role of an [org_user] row of that user in
    [OrgID]. *)
Theorem GetUsersPermissions_roles_non_admin faults orgID actionPrefix db
    userID l :
  (∀ u, u ∈ user db → Tables.user_id u = userID → user_is_admin u = false) →
  (GetUsersPermissions faults orgID actionPrefix db).2.1.2 !! userID = Some l →
  ∃ ou, ou ∈ org_user db ∧ org_user_user_id ou = userID
        ∧ org_user_org_id ou = orgID ∧ org_user_role ou ≠ ""
        ∧ l = [org_user_role ou].
Proof.
  intros Hplain. rewrite GetUsersPermissions_run.
  destruct (fault_find_permissions faults); [done|].
  destruct (fault_find_roles faults); [done|]. simpl. intros Hl.
  apply roles_of_non_admin in Hl as (r & Hr & Hid & Hrole & ->).
  - apply elem_of_find_roles in Hr as (u & Hu & Hid' & Hadm & Hfrom).
    rewrite Hid in Hid'.
    destruct Hfrom as [Hadmin|(ou & Hou & Houid & Horg & Hr)].
    + rewrite (Hplain u Hu) in Hadmin by done. done.
    + exists ou. rewrite <- Hr.
      split; [done|]. split; [congruence|done].
  - intros r Hr Hid.
    apply elem_of_find_roles in Hr as (u & Hu & Hid' & -> & _).
    apply Hplain; congruence.
Qed.

(** X10. For a user with the admin flag, when both queries succeed, the
    roles map has an entry and its last role is [Grafana Admin]. *)
Theorem GetUsersPermissions_roles_admin faults orgID actionPrefix db userID :
  fault_find_permissions faults = None →
  fault_find_roles faults = None →
  (∃ u, u ∈ user db ∧ Tables.user_id u = userID) →
  (∀ u, u ∈ user db → Tables.user_id u = userID → user_is_admin u = true) →
  ∃ l, (GetUsersPermissions faults orgID actionPrefix db).2.1.2 !! userID
       = Some (l ++ [accesscontrol.RoleGrafanaAdmin]).
Proof.
  intros Hok1 Hok2 (u & Hu & Hid) Hadmin.
  rewrite GetUsersPermissions_run, Hok1, Hok2. simpl.
  apply roles_of_admin.
  - intros r Hr Hrid.
    apply elem_of_find_roles in Hr as (u' & Hu' & Hid' & -> & _).
    apply Hadmin; congruence.
  - destruct (proj2 (find_roles_admin orgID db userID))
      as (r & Hr & Hrid & _); [|by exists r].
    exists u. split; [done|]. split; [done|]. by rewrite (Hadmin u Hu Hid).
Qed.

(** ** Further properties of [DeleteUserPermissions] *)

Section DeleteUserPermissions_more.

Variable ManagedUserRoleName : Z → string.

(** X11. For a user with nothing to delete (no user-role row, no managed
    role and, when [OrgID] is the global scope, no permission row scoped to
    the user), [DeleteUserPermissions] returns no error and leaves every
    table as it was, provided the statements that run do not fail. *)
Theorem DeleteUserPermissions_nothing_to_delete faults orgID userID db :
  fault_delete_user_role faults = None →
  (orgID = accesscontrol.GlobalOrgID → fault_delete_user_scope faults = None) →
  fault_select_role faults = None →
  (∀ ur, ur ∈ user_role db → user_role_user_id ur ≠ userID) →
  (∀ r, r ∈ role db → role_name r ≠ ManagedUserRoleName userID) →
  (orgID = accesscontrol.GlobalOrgID →
   ∀ p, p ∈ permission db →
        permission_scope p
        ≠ accesscontrol.Scope "users" "id" (FormatInt userID)) →
  DeleteUserPermissions ManagedUserRoleName faults orgID userID db
  = (db, None).
Proof.
  intros H1 H2 H3 Hur Hrole Hscope.
  assert (select_role_ids ManagedUserRoleName orgID userID db = []) as Hnone.
  { unfold select_role_ids. rewrite (proj2 (filter_nil_in _ _)); [done|].
    intros r Hr HQ. apply (Hrole r Hr). unfold roleQuery in HQ.
    destruct (decide (orgID ≠ _)); tauto. }
  rewrite DeleteUserPermissions_run, H1, H3, Hnone.
  assert (committed ManagedUserRoleName orgID userID db = db) as ->.
  { pose proof (committed_other_tables ManagedUserRoleName orgID userID db)
      as (? & ? & ? & ? & ?).
    apply DB_eq; try done.
    - rewrite committed_permission, Hnone. unfold Sql.delete_where.
      rewrite filter_id_in by (intros ? _; apply not_elem_of_nil).
      destruct (decide (orgID = _)) as [Hg|]; [|done].
      apply filter_id_in. intros p Hp. by apply Hscope.
    - rewrite committed_role, Hnone. unfold Sql.delete_where.
      apply filter_id_in. intros ? _. apply not_elem_of_nil.
    - rewrite committed_user_role. unfold Sql.delete_where.
      apply filter_id_in. intros ur Hin HQ. apply (Hur ur Hin).
      unfold roleDeleteQuery in HQ. destruct (decide (orgID ≠ _)); tauto. }
  destruct (decide (orgID = _)) as [Hg|]; [by rewrite (H2 Hg)|done].
Qed.

(** X12. [DeleteUserPermissions] leaves no permission row without its role:
    if every permission row belonged to a role row before a successful call,
    every permission row left belongs to a role row left. *)
Theorem DeleteUserPermissions_permissions_owned faults orgID userID db db' :
  permissions_owned db →
  DeleteUserPermissions ManagedUserRoleName faults orgID userID db
  = (db', None) →
  permissions_owned db'.
Proof.
  intros Howned Hrun p Hp.
  apply DeleteUserPermissions_success in Hrun. subst db'.
  rewrite committed_permission in Hp. unfold Sql.delete_where in Hp.
  apply list_elem_of_filter in Hp as [Hout Hp].
  assert (p ∈ permission db) as Hin.
  { destruct (decide (orgID = _)); [|done].
    by apply list_elem_of_filter in Hp as [_ Hp]. }
  destruct (Howned p Hin) as (r & Hr & Hid).
  exists r. split; [|done].
  rewrite committed_role. unfold Sql.delete_where.
  apply list_elem_of_filter. split; [by rewrite Hid|done].
Qed.

(** X13. A successful [DeleteUserPermissions] for one user leaves the
    user-role rows of every other user as they were, for every [OrgID]; and
    when role ids are unique it leaves every role row with another name, and
    every permission row owned by such a role (other than, for the global
    scope, the rows scoped to the user) as they were. *)
Theorem DeleteUserPermissions_other_users faults orgID userID db db' :
  DeleteUserPermissions ManagedUserRoleName faults orgID userID db
  = (db', None) →
  let others :=
    filter (λ r, role_name r ≠ ManagedUserRoleName userID) in
  let kept p :=
    (orgID = accesscontrol.GlobalOrgID →
     permission_scope p ≠ accesscontrol.Scope "users" "id" (FormatInt userID))
    ∧ permission_role_id p ∈ role_id <$> others (role db) in
  filter (λ ur, user_role_user_id ur ≠ userID) (user_role db')
  = filter (λ ur, user_role_user_id ur ≠ userID) (user_role db)
  ∧ (NoDup (role_id <$> role db) →
     others (role db') = others (role db)
     ∧ filter kept (permission db') = filter kept (permission db)).
Proof.
  intros Hrun others kept. subst others kept.
  apply DeleteUserPermissions_success in Hrun. subst db'.
  rewrite committed_user_role, committed_role, committed_permission.
  unfold Sql.delete_where. split.
  - apply list_filter_filter_l. intros ur Hne HQ. apply Hne.
    unfold roleDeleteQuery in HQ. destruct (decide (orgID ≠ _)); tauto.
  - intros Hkey.
    assert (∀ r, r ∈ role db → role_name r ≠ ManagedUserRoleName userID →
                 role_id r
                 ∉ select_role_ids ManagedUserRoleName orgID userID db)
      as Hout.
    { intros r Hr Hname Hin. unfold select_role_ids in Hin.
      apply list_elem_of_fmap in Hin as (r' & Hid & Hr').
      apply list_elem_of_filter in Hr' as [HQ Hr'].
      assert (r = r') by (by eapply NoDup_fmap_inj_in). subst r'.
      unfold roleQuery in HQ. destruct (decide (orgID ≠ _)); tauto. }
    split.
    + rewrite list_filter_filter. apply filter_ext_in.
      intros r Hr. split; [tauto|]. intros Hname. split; [done|].
      by apply Hout.
    + assert (∀ p, permission_role_id p
                   ∈ role_id
                     <$> filter (λ r, role_name r
                                      ≠ ManagedUserRoleName userID) (role db) →
                   permission_role_id p
                   ∉ select_role_ids ManagedUserRoleName orgID userID db)
        as Hperm.
      { intros p (r & -> & Hr)%list_elem_of_fmap.
        apply list_elem_of_filter in Hr as [Hname Hr]. by apply Hout. }
      destruct (decide (orgID = _)) as [Hg|Hg].
      * rewrite !list_filter_filter. apply list_filter_iff.
        intros p. split; [tauto|]. intros [Hs Hin].
        split; [|by apply Hs]. split; [done|]. by apply Hperm.
      * rewrite list_filter_filter. apply list_filter_iff.
        intros p. split; [tauto|]. intros [Hs Hin].
        split; [done|]. by apply Hperm.
Qed.

(** Deleting within an organization and then globally commits what deleting
    globally commits. *)
Lemma committed_org_then_global orgID userID db :
  committed ManagedUserRoleName accesscontrol.GlobalOrgID userID
    (committed ManagedUserRoleName orgID userID db)
  = committed ManagedUserRoleName accesscontrol.GlobalOrgID userID db.
Proof.
  assert (∀ name r, roleQuery name accesscontrol.GlobalOrgID r
                    ↔ role_name r = name) as HG.
  { intros name r. unfold roleQuery. by rewrite decide_False by tauto. }
  assert (∀ name r, roleQuery name orgID r → role_name r = name) as HO.
  { intros name r. unfold roleQuery. destruct (decide (orgID ≠ _)); tauto. }
  assert (∀ i,
            ((i ∉ select_role_ids ManagedUserRoleName
                    accesscontrol.GlobalOrgID userID
                    (committed ManagedUserRoleName orgID userID db))
             ∧ (i ∉ select_role_ids ManagedUserRoleName orgID userID db))
            ↔ (i ∉ select_role_ids ManagedUserRoleName
                     accesscontrol.GlobalOrgID userID db)) as Hids.
  { intros i. unfold select_role_ids at 1 3.
    rewrite committed_role. unfold Sql.delete_where. split.
    - intros [H2 H1] (r & -> & Hr)%list_elem_of_fmap.
      apply list_elem_of_filter in Hr as [Hname Hr].
      apply H2. apply list_elem_of_fmap_2.
      apply list_elem_of_filter. split; [done|].
      by apply list_elem_of_filter.
    - intros Hall. split.
      + intros (r & -> & Hr)%list_elem_of_fmap.
        apply list_elem_of_filter in Hr as [Hname Hr].
        apply list_elem_of_filter in Hr as [_ Hr].
        apply Hall. apply list_elem_of_fmap_2. by apply list_elem_of_filter.
      + intros (r & -> & Hr)%list_elem_of_fmap.
        apply list_elem_of_filter in Hr as [HQ Hr].
        apply Hall. apply list_elem_of_fmap_2.
        apply list_elem_of_filter. split; [|done].
        apply HG. by apply HO in HQ. }
  pose proof (committed_other_tables ManagedUserRoleName
                accesscontrol.GlobalOrgID userID
                (committed ManagedUserRoleName orgID userID db))
    as (? & ? & ? & ? & ?).
  pose proof (committed_other_tables ManagedUserRoleName
                accesscontrol.GlobalOrgID userID db) as (? & ? & ? & ? & ?).
  pose proof (committed_other_tables ManagedUserRoleName orgID userID db)
    as (? & ? & ? & ? & ?).
  apply DB_eq; try congruence.
  - rewrite !committed_permission.
    rewrite !(decide_True
                (P := accesscontrol.GlobalOrgID = accesscontrol.GlobalOrgID))
      by done.
    unfold Sql.delete_where.
    destruct (decide (orgID = _)).
    + rewrite !list_filter_filter. apply list_filter_iff. intros p.
      specialize (Hids (permission_role_id p)). tauto.
    + rewrite !list_filter_filter. apply list_filter_iff. intros p.
      specialize (Hids (permission_role_id p)). tauto.
  - rewrite !committed_role.
    unfold Sql.delete_where. rewrite list_filter_filter.
    apply list_filter_iff. intros r. apply Hids.
  - rewrite !committed_user_role.
    unfold Sql.delete_where. apply list_filter_filter_l.
    intros ur Hne HQ. apply Hne. unfold roleDeleteQuery in *.
    rewrite decide_False by tauto. destruct (decide (orgID ≠ _)); tauto.
Qed.

(** X14. A successful call for an organization followed by a successful
    call for the global scope leaves the tables a successful call for the
    global scope alone leaves. *)
Theorem DeleteUserPermissions_org_then_global faults1 faults2 faults3 orgID
    userID db db1 db2 db3 :
  DeleteUserPermissions ManagedUserRoleName faults1 orgID userID db
  = (db1, None) →
  DeleteUserPermissions ManagedUserRoleName faults2
    accesscontrol.GlobalOrgID userID db1 = (db2, None) →
  DeleteUserPermissions ManagedUserRoleName faults3
    accesscontrol.GlobalOrgID userID db = (db3, None) →
  db2 = db3.
Proof.
  intros ->%DeleteUserPermissions_success ->%DeleteUserPermissions_success
    ->%DeleteUserPermissions_success.
  apply committed_org_then_global.
Qed.

(** X15. After a successful call for the global scope, a user who is in no
    team, holds no org role and has no admin flag gets no entry in the
    permissions map of [GetUsersPermissions], for any organization and any
    action prefix. *)
Theorem DeleteUserPermissions_then_GetUsersPermissions faults userID db db'
    faults' orgID actionPrefix :
  DeleteUserPermissions ManagedUserRoleName faults
    accesscontrol.GlobalOrgID userID db = (db', None) →
  (∀ tm, tm ∈ team_member db → team_member_user_id tm ≠ userID) →
  (∀ ou, ou ∈ org_user db → org_user_user_id ou ≠ userID) →
  (∀ u, u ∈ user db → Tables.user_id u = userID → user_is_admin u = false) →
  (GetUsersPermissions faults' orgID actionPrefix db').2.1.1 !! userID = None.
Proof.
  intros Hrun Hteam Horg Hadmin.
  apply DeleteUserPermissions_success in Hrun. subst db'.
  rewrite GetUsersPermissions_run.
  destruct (fault_find_permissions faults'); [done|].
  assert (mapped_of
            (find_permissions orgID actionPrefix
               (committed ManagedUserRoleName accesscontrol.GlobalOrgID
                  userID db)) !! userID = None) as Hnone;
    [|by destruct (fault_find_roles faults')].
  rewrite mapped_of_lookup, perms_of_find_permissions.
  rewrite (proj2 (filter_nil_in _ _)); [done|].
  intros r Hr (Hu & _).
  pose proof (committed_other_tables ManagedUserRoleName
                accesscontrol.GlobalOrgID userID db)
    as (Htr & Htm & Hbr & Hou & Husr).
  apply elem_of_up_rows in Hr. unfold grant_paths in Hr.
  rewrite !elem_of_app in Hr. destruct Hr as [Hr|[Hr|[Hr|Hr]]].
  - apply elem_of_up_user_role in Hr as (p & ur & _ & Hur & _ & ->).
    rewrite committed_user_role in Hur. unfold Sql.delete_where in Hur.
    apply list_elem_of_filter in Hur as [HQ _]. apply HQ.
    unfold roleDeleteQuery. by rewrite decide_False by tauto.
  - apply elem_of_up_team_role in Hr as (p & tr & tm & _ & _ & Hin & _ & _ & ->).
    rewrite Htm in Hin. by apply (Hteam tm Hin).
  - apply elem_of_up_builtin_role in Hr
      as (p & br & ou & _ & _ & Hin & _ & _ & ->).
    rewrite Hou in Hin. by apply (Horg ou Hin).
  - apply elem_of_up_grafana_admin in Hr
      as (p & br & u & _ & _ & Hin & _ & _ & Hadm & ->).
    rewrite Husr in Hin. simpl in Hu.
    rewrite (Hadmin u Hin Hu) in Hadm. done.
Qed.

End DeleteUserPermissions_more.

(** ** Further concrete runs *)

(** Decide a closed statement about every row of a table by evaluation. *)
Ltac by_rows :=
  match goal with
  | |- ∀ x, x ∈ ?l → @?P x =>
      apply (proj1 (Forall_forall P l)); by_evaluation
  end.





(** X5 at a concrete input. *)
Lemma GetUsersPermissions_grouping_witness :
  (GetUsersPermissions no_users_faults 1 "teams" db_two_paths).2.1.1 !! 5
  = entry ((λ r, {| Action := UserRBACPermission.Action r;
                    Scope := UserRBACPermission.Scope r |})
           <$> filter (λ r, UserRBACPermission.UserID r = 5)
                 (find_permissions 1 "teams" db_two_paths)).
Proof.
  apply (GetUsersPermissions_grouping no_users_faults 1 "teams" db_two_paths
           5 eq_refl).
Defined.

(** X6 at a concrete input: user 5 has [teams:read] through team 3. *)
Lemma GetUsersPermissions_membership_witness :
  {| Action := "teams:read"; Scope := "teams:*" |}
  ∈ default []
      ((GetUsersPermissions no_users_faults 1 "teams" db_two_paths).2.1.1
       !! 5).
Proof.
  apply (GetUsersPermissions_membership no_users_faults 1 "teams"
           db_two_paths 5 _ eq_refl).
  exists {| permission_role_id := 1; permission_action := "teams:read";
            permission_scope := "teams:*" |}.
  split; [by_evaluation|]. split; [reflexivity|]. split; [by_evaluation|].
  right. left.
  exists {| team_role_org_id := 1; team_role_team_id := 3;
            team_role_role_id := 1 |},
         {| team_member_team_id := 3; team_member_user_id := 5 |}.
  split; [left|]. split; [left|]. repeat split. by right.
Defined.



(** X9 at a concrete input: user 5 of [db_two_paths] is a Viewer of
    organization 1 and has no admin flag. *)
Lemma GetUsersPermissions_roles_non_admin_witness :
  ∃ ou, ou ∈ org_user db_two_paths ∧ org_user_user_id ou = 5
        ∧ org_user_org_id ou = 1 ∧ org_user_role ou ≠ ""
        ∧ ["Viewer"] = [org_user_role ou].
Proof.
  apply (GetUsersPermissions_roles_non_admin no_users_faults 1 "teams"
           db_two_paths 5 ["Viewer"]).
  - by_rows.
  - reflexivity.
Defined.

(** X10 at a concrete input: user 1 of [db_admin_elsewhere]. *)
Lemma GetUsersPermissions_roles_admin_witness :
  ∃ l, (GetUsersPermissions no_users_faults 1 "" db_admin_elsewhere).2.1.2 !! 1
       = Some (l ++ [accesscontrol.RoleGrafanaAdmin]).
Proof.
  apply (GetUsersPermissions_roles_admin no_users_faults 1 ""
           db_admin_elsewhere 1 eq_refl eq_refl).
  - exists {| Tables.user_id := 1; user_is_admin := true |}.
    split; [left|reflexivity].
  - by_rows.
Defined.

(** X11 at a concrete input: user 9 appears nowhere in [db_two_paths]. *)
Lemma DeleteUserPermissions_nothing_to_delete_witness :
  DeleteUserPermissions sample_role_name no_delete_faults
    accesscontrol.GlobalOrgID 9 db_two_paths
  = (db_two_paths, None).
Proof.
  apply (DeleteUserPermissions_nothing_to_delete sample_role_name
           no_delete_faults accesscontrol.GlobalOrgID 9 db_two_paths
           eq_refl (λ _, eq_refl) eq_refl).
  - by_rows.
  - by_rows.
  - intros _. by_rows.
Defined.

(** X12 at a concrete input. *)
Lemma DeleteUserPermissions_permissions_owned_witness :
  permissions_owned
    (DeleteUserPermissions sample_role_name no_delete_faults 1 7 db_user7).1.
Proof.
  apply (DeleteUserPermissions_permissions_owned sample_role_name
           no_delete_faults 1 7 db_user7 _); [|reflexivity].
  intros p Hp.
  assert (permission_role_id p ∈ role_id <$> role db_user7) as Hin.
  { revert p Hp. by_rows. }
  apply list_elem_of_fmap in Hin as (r & Hid & Hr). by exists r.
Defined.

(** X13 at a concrete input: the user-role row of user 8 survives the call
    for user 7. *)
Lemma DeleteUserPermissions_other_users_witness :
  filter (λ ur, user_role_user_id ur ≠ 7)
    (user_role
       (DeleteUserPermissions sample_role_name no_delete_faults
          accesscontrol.GlobalOrgID 7 db_user7).1)
  = filter (λ ur, user_role_user_id ur ≠ 7) (user_role db_user7).
Proof.
  apply (DeleteUserPermissions_other_users sample_role_name no_delete_faults
           accesscontrol.GlobalOrgID 7 db_user7 _ eq_refl).
Defined.

(** X14 at a concrete input. *)
Lemma DeleteUserPermissions_org_then_global_witness :
  (DeleteUserPermissions sample_role_name no_delete_faults
     accesscontrol.GlobalOrgID 7
     (DeleteUserPermissions sample_role_name no_delete_faults 1 7
        db_user7).1).1
  = (DeleteUserPermissions sample_role_name no_delete_faults
       accesscontrol.GlobalOrgID 7 db_user7).1.
Proof.
  apply (DeleteUserPermissions_org_then_global sample_role_name
           no_delete_faults no_delete_faults no_delete_faults 1 7 db_user7
           _ _ _ eq_refl eq_refl eq_refl).
Defined.

(** X15 at a concrete input: user 8 of [db_user7] has only a direct
    assignment. *)
Lemma DeleteUserPermissions_then_GetUsersPermissions_witness :
  (GetUsersPermissions no_users_faults 1 "users"
     (DeleteUserPermissions sample_role_name no_delete_faults
        accesscontrol.GlobalOrgID 8 db_user7).1).2.1.1 !! 8 = None.
Proof.
  apply (DeleteUserPermissions_then_GetUsersPermissions sample_role_name
           no_delete_faults 8 db_user7 _ no_users_faults 1 "users" eq_refl).
  - intros tm Htm. by apply not_elem_of_nil in Htm.
  - by_rows.
  - by_rows.
Defined.
